(** * Pleo MCP server: the five tool handlers of [server.py]

    A shallow embedding of [src/server.py].  Every handler is an
    [async def] that builds one HTTP request, awaits the reply, renders the
    decoded JSON as text, and converts every raised [Exception] into a
    returned string.  The embedding keeps that shape:

    - decoded JSON is an inductive type of Python objects ([pyobj]);
    - [dict]s built by the handlers (query parameters, the update payload)
      are [gmap]s keyed by strings;
    - raising, the requests put on the wire and the records written to the
      logger are threaded through a small state-and-exception monad [M];
    - the process environment and the remote API are a [World].

    [PleoAPIClient.download_file] is called by no handler and is left out. *)

From Stdlib Require Import ZArith String Ascii List SpecFloat.
From stdpp Require Import base option list gmap strings pretty.

Open Scope string_scope.
Open Scope Z_scope.

Set Warnings "-register-all".

(** ** Python objects *)

(** What [response.json()] can return.  A decoded object's keys are always
    [str]; its items are kept in insertion order. *)
Inductive pyobj : Type :=
| PyNone
| PyBool (b : bool)
| PyInt (n : Z)
| PyFloat (x : spec_float)
| PyStr (s : string)
| PyList (xs : list pyobj)
| PyDict (items : list (string * pyobj)).

(** [bool(o)]: the test behind [if o:] and [if not o:]. *)
Definition truthy (o : pyobj) : bool :=
  match o with
  | PyNone => false
  | PyBool b => b
  | PyInt n => negb (n =? 0)
  | PyFloat (S754_zero _) => false
  | PyFloat _ => true
  | PyStr s => negb (String.eqb s "")
  | PyList xs => match xs with [] => false | _ => true end
  | PyDict items => match items with [] => false | _ => true end
  end.

(** [type(o).__name__], as it appears in the interpreter's messages. *)
Definition type_name (o : pyobj) : string :=
  match o with
  | PyNone => "NoneType"
  | PyBool _ => "bool"
  | PyInt _ => "int"
  | PyFloat _ => "float"
  | PyStr _ => "str"
  | PyList _ => "list"
  | PyDict _ => "dict"
  end.

(** An [Optional[str]] argument as the object the handler sees. *)
Definition of_optional (a : option string) : pyobj :=
  match a with
  | None => PyNone
  | Some s => PyStr s
  end.

(** Item lookup in a decoded object. *)
Fixpoint dict_lookup (k : string) (items : list (string * pyobj)) : option pyobj :=
  match items with
  | [] => None
  | (k', v) :: rest => if String.eqb k k' then Some v else dict_lookup k rest
  end.

Definition LF : string := String "010"%char "".

(** ** Exceptions, requests, replies *)

(** What can be raised.  [HTTPStatusError] and [Exception cls text] are
    instances of Python's [Exception]; an [HTTPStatusError] carries the
    reply's status ([e.response.status_code]).  [BaseException cls text]
    stands for what derives from [BaseException] only
    ([asyncio.CancelledError] at an [await], [KeyboardInterrupt],
    [SystemExit]): an [except Exception] clause does not take it.  [text]
    is [str(e)]. *)
Inductive Exn : Type :=
| HTTPStatusError (text : string) (status_code : Z)
| Exception (cls : string) (text : string)
| BaseException (cls : string) (text : string).

Definition exn_str (e : Exn) : string :=
  match e with
  | HTTPStatusError text _ => text
  | Exception _ text => text
  | BaseException _ text => text
  end.

(** [isinstance(e, Exception)]. *)
Definition is_Exception (e : Exn) : bool :=
  match e with
  | HTTPStatusError _ _ | Exception _ _ => true
  | BaseException _ _ => false
  end.

Inductive Outcome (A : Type) : Type :=
| Returned (a : A)
| Raised (e : Exn).
Arguments Returned {A} a.
Arguments Raised {A} e.

Inductive Method : Type := GET | PUT.

(** One call of [httpx.AsyncClient.get] or [.put], with the keyword
    arguments the client passes. *)
Record Request : Type := mkRequest {
  method : Method;
  url : string;
  headers : list (string * string);
  params : option (gmap string pyobj);
  json : option (gmap string string);
  timeout : Z
}.

(** A reply: its status, the text httpx gives the [HTTPStatusError] that
    [raise_for_status] builds from it, and what [response.json()] does. *)
Record Response : Type := mkResponse {
  status_code : Z;
  status_error_text : string;
  decoded : Outcome pyobj
}.

(** The world outside the process: the environment left by [load_dotenv()]
    and the remote API behind httpx (a request either raises in transport
    or is answered). *)
Record World : Type := mkWorld {
  getenv : string -> option string;
  transport : Request -> Outcome Response
}.

(** ** The effect monad *)

Inductive Level : Type := WARNING | ERROR.

(** What a run leaves behind: requests in the order sent, log records in
    the order written. *)
Record Effects : Type := mkEffects {
  requests : list Request;
  log : list (Level * string)
}.

(** The state once [q] has gone out. *)
Definition after_send (s : Effects) (q : Request) : Effects :=
  {| requests := requests s ++ [q]; log := log s |}.

Definition no_effects : Effects := {| requests := []; log := [] |}.

Definition M (A : Type) : Type := Effects -> Outcome A * Effects.

Definition ret {A} (a : A) : M A := fun s => (Returned a, s).

Definition raise {A} (e : Exn) : M A := fun s => (Raised e, s).

Definition bind {A B} (m : M A) (k : A -> M B) : M B :=
  fun s =>
    match m s with
    | (Returned a, s') => k a s'
    | (Raised e, s') => (Raised e, s')
    end.

Declare Scope py_scope.
Delimit Scope py_scope with py.
Notation "x <- m ;; k" := (bind m (fun x => k))
  (at level 100, m at next level, right associativity) : py_scope.
Notation "m ;; k" := (bind m (fun _ => k))
  (at level 100, right associativity) : py_scope.
Open Scope py_scope.

Definition of_outcome {A} (o : Outcome A) : M A := fun s => (o, s).

Definition logger (lvl : Level) (msg : string) : M unit :=
  fun s => (Returned tt, {| requests := requests s; log := log s ++ [(lvl, msg)] |}).

(** The two [except] clauses the handlers use.  The first binds [e] to an
    [httpx.HTTPStatusError] and is given [str(e)] and
    [e.response.status_code]; the second takes any instance of
    [Exception]. *)
Inductive ExceptClause (A : Type) : Type :=
| except_HTTPStatusError (h : string -> Z -> M A)
| except_Exception (h : Exn -> M A).
Arguments except_HTTPStatusError {A} h.
Arguments except_Exception {A} h.

Definition clause_handles {A} (c : ExceptClause A) (e : Exn) : option (M A) :=
  match c, e with
  | except_HTTPStatusError h, HTTPStatusError text code => Some (h text code)
  | except_HTTPStatusError _, _ => None
  | except_Exception h, _ => if is_Exception e then Some (h e) else None
  end.

(** The first clause that matches the exception. *)
Fixpoint select_clause {A} (e : Exn) (cs : list (ExceptClause A)) : option (M A) :=
  match cs with
  | [] => None
  | c :: rest =>
      match clause_handles c e with
      | Some h => Some h
      | None => select_clause e rest
      end
  end.

(** [try: body  except ...: ...]; an exception no clause matches, or one a
    clause itself raises, goes on to the caller. *)
Definition try_except {A} (body : M A) (cs : list (ExceptClause A)) : M A :=
  fun s =>
    match body s with
    | (Returned a, s') => (Returned a, s')
    | (Raised e, s') =>
        match select_clause e cs with
        | Some h => h s'
        | None => (Raised e, s')
        end
    end.

Definition result {A} (m : M A) : Outcome A := fst (m no_effects).
Definition sent {A} (m : M A) : list Request := requests (snd (m no_effects)).

(** ** Interpreter built-ins used by the handlers *)

Section Interpreter.

(** Two built-ins are taken from the interpreter as they are: [repr] of a
    float or a container, and the split of a [str] into its characters
    (code points), which is what iterating a [str] yields. *)
Variable py_repr : pyobj -> string.
Variable str_chars : string -> list string.

(** [str(o)], which is also what an f-string field [{o}] inserts. *)
Definition py_str (o : pyobj) : string :=
  match o with
  | PyNone => "None"
  | PyBool true => "True"
  | PyBool false => "False"
  | PyInt n => pretty n
  | PyStr s => s
  | PyFloat _ | PyList _ | PyDict _ => py_repr o
  end.

(** [o.get(key, default)]: only a [dict] has the method. *)
Definition py_get (o : pyobj) (key : string) (default : pyobj) : M pyobj :=
  match o with
  | PyDict items =>
      ret (match dict_lookup key items with Some v => v | None => default end)
  | _ =>
      raise (Exception "AttributeError"
               ("'" +:+ type_name o +:+ "' object has no attribute 'get'"))
  end.

(** [len(o)]. *)
Definition py_len (o : pyobj) : M Z :=
  match o with
  | PyStr s => ret (Z.of_nat (length (str_chars s)))
  | PyList xs => ret (Z.of_nat (length xs))
  | PyDict items => ret (Z.of_nat (length items))
  | _ =>
      raise (Exception "TypeError"
               ("object of type '" +:+ type_name o +:+ "' has no len()"))
  end.

(** The items [for x in o:] visits: a [dict] yields its keys, a [str] its
    characters. *)
Definition py_iter (o : pyobj) : M (list pyobj) :=
  match o with
  | PyStr s => ret (PyStr <$> str_chars s)
  | PyList xs => ret xs
  | PyDict items => ret ((fun kv => PyStr (fst kv)) <$> items)
  | _ =>
      raise (Exception "TypeError"
               ("'" +:+ type_name o +:+ "' object is not iterable"))
  end.

(** [for x in xs: acc = step(acc, x)], stopping at the first raise. *)
Fixpoint for_each {A} (xs : list pyobj) (step : A -> pyobj -> M A) (acc : A) : M A :=
  match xs with
  | [] => ret acc
  | x :: rest => acc' <- step acc x ;; for_each rest step acc'
  end.

(** [sep.join(o)]: every item must be a [str]. *)
Fixpoint join_items (sep : string) (i : nat) (xs : list pyobj) (acc : string) : M string :=
  match xs with
  | [] => ret acc
  | PyStr s :: rest =>
      join_items sep (S i) rest
        (match i with O => s | S _ => acc +:+ sep +:+ s end)
  | x :: _ =>
      raise (Exception "TypeError"
               ("sequence item " +:+ pretty i +:+ ": expected str instance, "
                  +:+ type_name x +:+ " found"))
  end.

Definition py_join (sep : string) (o : pyobj) : M string :=
  match o with
  | PyStr _ | PyList _ | PyDict _ =>
      xs <- py_iter o ;; join_items sep O xs ""
  | _ => raise (Exception "TypeError" "can only join an iterable")
  end.

(** ** Module level: configuration *)

Definition PLEO_API_BASE_URL : string := "https://openapi.pleo.io/v1".

(** [PLEO_API_KEY = os.getenv("PLEO_API_KEY")], read once at import. *)
Definition PLEO_API_KEY (w : World) : option string := getenv w "PLEO_API_KEY".

(** The warning written at import when the key is missing or empty. *)
Definition module_init (w : World) : M unit :=
  if truthy (of_optional (PLEO_API_KEY w)) then ret tt
  else logger WARNING "PLEO_API_KEY environment variable not set".

(** ** [PleoAPIClient] *)

Record PleoAPIClient : Type := mkClient {
  api_key : string;
  base_url : string;
  client_headers : list (string * string)
}.

Definition PleoAPIClient_init (key : string) : PleoAPIClient :=
  {| api_key := key;
     base_url := PLEO_API_BASE_URL;
     client_headers :=
       [("Authorization", "Bearer " +:+ key);
        ("Accept", "application/json");
        ("Content-Type", "application/json")] |}.

(** Putting a request on the wire: it is recorded, then the world
    answers or the transport raises. *)
Definition http_send (w : World) (r : Request) : M Response :=
  fun s => (transport w r, after_send s r).

(** [response.is_success]: a status in 200..299. *)
Definition is_success (r : Response) : bool :=
  (200 <=? status_code r) && (status_code r <=? 299).

(** [response.raise_for_status()]: any other status raises. *)
Definition raise_for_status (r : Response) : M unit :=
  if is_success r then ret tt
  else raise (HTTPStatusError (status_error_text r) (status_code r)).

Definition response_json (r : Response) : M pyobj := of_outcome (decoded r).

Definition client_get (w : World) (self : PleoAPIClient) (endpoint : string)
    (query : option (gmap string pyobj)) : M pyobj :=
  let url := base_url self +:+ endpoint in
  response <- http_send w {| method := GET; url := url;
                             headers := client_headers self;
                             params := query; json := None; timeout := 30 |} ;;
  raise_for_status response ;;
  response_json response.

Definition client_put (w : World) (self : PleoAPIClient) (endpoint : string)
    (data : gmap string string) : M pyobj :=
  let url := base_url self +:+ endpoint in
  response <- http_send w {| method := PUT; url := url;
                             headers := client_headers self;
                             params := None; json := Some data; timeout := 30 |} ;;
  raise_for_status response ;;
  response_json response.

Definition get_client (w : World) : M PleoAPIClient :=
  match PLEO_API_KEY w with
  | Some key =>
      if truthy (PyStr key) then ret (PleoAPIClient_init key)
      else raise (Exception "ValueError" "PLEO_API_KEY environment variable is not set")
  | None =>
      raise (Exception "ValueError" "PLEO_API_KEY environment variable is not set")
  end.

(** ** The tool handlers *)

(** *** [list_expenses] *)

(** Body of the [for expense in expenses:] loop (lines 129-143): one block
    appended to [summary]. *)
Definition list_expenses_block (summary : string) (expense : pyobj) : M string :=
  expense_id <- py_get expense "id" (PyStr "N/A") ;;
  performed_at <- py_get expense "performedAt" (PyStr "N/A") ;;
  amount <- py_get expense "amountOriginal" (PyDict []) ;;
  value <- py_get amount "value" (PyInt 0) ;;
  currency <- py_get amount "currency" (PyStr "N/A") ;;
  note <- py_get expense "note" (PyStr "No note") ;;
  exp_type <- py_get expense "type" (PyStr "N/A") ;;
  exp_status <- py_get expense "status" (PyStr "N/A") ;;
  ret (summary
       +:+ "- ID: " +:+ py_str expense_id +:+ LF
       +:+ "  Date: " +:+ py_str performed_at +:+ LF
       +:+ "  Amount: " +:+ py_str value +:+ " " +:+ py_str currency +:+ LF
       +:+ "  Type: " +:+ py_str exp_type +:+ LF
       +:+ "  Status: " +:+ py_str exp_status +:+ LF
       +:+ "  Note: " +:+ py_str note +:+ LF +:+ LF).

(** The query parameters (lines 105-114): [limit] always, a filter only
    when its argument is truthy. *)
Definition list_expenses_params
    (status expense_type from_date to_date : option string) (limit : Z)
    : gmap string pyobj :=
  let params : gmap string pyobj := {[ "limit" := PyInt (Z.min limit 100) ]} in
  let params :=
    if truthy (of_optional status)
    then <[ "status" := of_optional status ]> params else params in
  let params :=
    if truthy (of_optional expense_type)
    then <[ "type" := of_optional expense_type ]> params else params in
  let params :=
    if truthy (of_optional from_date)
    then <[ "performedAtFrom" := of_optional from_date ]> params else params in
  let params :=
    if truthy (of_optional to_date)
    then <[ "performedAtTo" := of_optional to_date ]> params else params in
  params.

Definition no_expenses_message : string := "No expenses found matching the criteria.".

Definition list_expenses (w : World)
    (status expense_type from_date to_date : option string) (limit : Z) : M string :=
  try_except
    (client <- get_client w ;;
     let params := list_expenses_params status expense_type from_date to_date limit in
     result <- client_get w client "/expenses" (Some params) ;;
     expenses <- py_get result "data" (PyList []) ;;
     if negb (truthy expenses) then ret no_expenses_message
     else
       n <- py_len expenses ;;
       let summary := "Found " +:+ pretty n +:+ " expense(s):" +:+ LF +:+ LF in
       items <- py_iter expenses ;;
       for_each items list_expenses_block summary)
    [except_Exception (fun e =>
       logger ERROR ("Error listing expenses: " +:+ exn_str e) ;;
       ret ("Error: " +:+ exn_str e))].

(** *** [get_expense] *)

(** The detail text built from the decoded expense (lines 168-211). *)
Definition get_expense_details (expense : pyobj) : M string :=
  let result := "Expense Details:" +:+ LF +:+ LF in
  v <- py_get expense "id" (PyStr "N/A") ;;
  let result := result +:+ "ID: " +:+ py_str v +:+ LF in
  v <- py_get expense "employeeId" (PyStr "N/A") ;;
  let result := result +:+ "Employee ID: " +:+ py_str v +:+ LF in
  v <- py_get expense "employeeCode" (PyStr "N/A") ;;
  let result := result +:+ "Employee Code: " +:+ py_str v +:+ LF in
  v <- py_get expense "departmentId" (PyStr "N/A") ;;
  let result := result +:+ "Department ID: " +:+ py_str v +:+ LF in
  v <- py_get expense "performedAt" (PyStr "N/A") ;;
  let result := result +:+ "Performed At: " +:+ py_str v +:+ LF in
  amount_original <- py_get expense "amountOriginal" (PyDict []) ;;
  value <- py_get amount_original "value" (PyInt 0) ;;
  currency <- py_get amount_original "currency" (PyStr "N/A") ;;
  let result :=
    result +:+ "Original Amount: " +:+ py_str value +:+ " " +:+ py_str currency +:+ LF in
  amount_settled <- py_get expense "amountSettled" (PyDict []) ;;
  result <-
    (if truthy amount_settled then
       value <- py_get amount_settled "value" (PyInt 0) ;;
       currency <- py_get amount_settled "currency" (PyStr "N/A") ;;
       ret (result +:+ "Settled Amount: " +:+ py_str value +:+ " "
              +:+ py_str currency +:+ LF)
     else ret result) ;;
  v <- py_get expense "note" (PyStr "No note") ;;
  let result := result +:+ "Note: " +:+ py_str v +:+ LF in
  v <- py_get expense "type" (PyStr "N/A") ;;
  let result := result +:+ "Type: " +:+ py_str v +:+ LF in
  v <- py_get expense "status" (PyStr "N/A") ;;
  let result := result +:+ "Status: " +:+ py_str v +:+ LF in
  v <- py_get expense "accountId" (PyStr "N/A") ;;
  let result := result +:+ "Account ID: " +:+ py_str v +:+ LF in
  v <- py_get expense "taxCodeId" (PyStr "N/A") ;;
  let result := result +:+ "Tax Code ID: " +:+ py_str v +:+ LF in
  receipt_ids <- py_get expense "receiptIds" (PyList []) ;;
  joined <- (if truthy receipt_ids then py_join ", " receipt_ids else ret "None") ;;
  let result := result +:+ "Receipt IDs: " +:+ joined +:+ LF in
  card_transaction <- py_get expense "cardTransaction" (PyDict []) ;;
  result <-
    (if truthy card_transaction then
       let result := result +:+ LF +:+ "Card Transaction:" +:+ LF in
       v <- py_get card_transaction "state" (PyStr "N/A") ;;
       let result := result +:+ "  State: " +:+ py_str v +:+ LF in
       v <- py_get card_transaction "authorizedAt" (PyStr "N/A") ;;
       let result := result +:+ "  Authorized At: " +:+ py_str v +:+ LF in
       v <- py_get card_transaction "settledAt" (PyStr "N/A") ;;
       let result := result +:+ "  Settled At: " +:+ py_str v +:+ LF in
       merchant <- py_get card_transaction "merchant" (PyDict []) ;;
       if truthy merchant then
         name <- py_get merchant "name" (PyStr "N/A") ;;
         id <- py_get merchant "id" (PyStr "N/A") ;;
         ret (result +:+ "  Merchant: " +:+ py_str name +:+ " (ID: "
                +:+ py_str id +:+ ")" +:+ LF)
       else ret result
     else ret result) ;;
  v <- py_get expense "createdAt" (PyStr "N/A") ;;
  let result := result +:+ LF +:+ "Created At: " +:+ py_str v +:+ LF in
  v <- py_get expense "updatedAt" (PyStr "N/A") ;;
  let result := result +:+ "Updated At: " +:+ py_str v +:+ LF in
  ret result.

Definition expense_not_found (expense_id : string) : string :=
  "Error: Expense with ID " +:+ expense_id +:+ " not found".

Definition get_expense (w : World) (expense_id : string) : M string :=
  try_except
    (client <- get_client w ;;
     expense <- client_get w client ("/expenses/" +:+ expense_id) None ;;
     get_expense_details expense)
    [except_HTTPStatusError (fun text code =>
       if code =? 404 then ret (expense_not_found expense_id)
       else
         logger ERROR ("HTTP error getting expense: " +:+ text) ;;
         ret ("Error: " +:+ text));
     except_Exception (fun e =>
       logger ERROR ("Error getting expense: " +:+ exn_str e) ;;
       ret ("Error: " +:+ exn_str e))].

(** *** [update_expense] *)

(** The update payload (lines 246-253): a key for each argument that is not
    [None]. *)
Definition update_expense_data (note account_id tax_code_id : option string)
    : gmap string string :=
  let update_data : gmap string string := ∅ in
  let update_data :=
    match note with
    | Some v => <[ "note" := v ]> update_data
    | None => update_data
    end in
  let update_data :=
    match account_id with
    | Some v => <[ "accountId" := v ]> update_data
    | None => update_data
    end in
  let update_data :=
    match tax_code_id with
    | Some v => <[ "taxCodeId" := v ]> update_data
    | None => update_data
    end in
  update_data.

Definition no_update_fields_message : string :=
  "Error: No update fields provided. Please specify at least one field to update.".

Definition update_expense (w : World) (expense_id : string)
    (note account_id tax_code_id : option string) : M string :=
  try_except
    (client <- get_client w ;;
     let update_data := update_expense_data note account_id tax_code_id in
     if bool_decide (update_data = ∅) then ret no_update_fields_message
     else
       result <- client_put w client ("/expenses/" +:+ expense_id) update_data ;;
       ret ("Successfully updated expense " +:+ expense_id))
    [except_HTTPStatusError (fun text code =>
       if code =? 404 then ret (expense_not_found expense_id)
       else
         logger ERROR ("HTTP error updating expense: " +:+ text) ;;
         ret ("Error: " +:+ text));
     except_Exception (fun e =>
       logger ERROR ("Error updating expense: " +:+ exn_str e) ;;
       ret ("Error: " +:+ exn_str e))].

(** *** [get_expense_receipts] *)

(** Body of the [for receipt in receipts:] loop (lines 294-305). *)
Definition get_expense_receipts_block (result : string) (receipt : pyobj) : M string :=
  receipt_id <- py_get receipt "id" (PyStr "N/A") ;;
  name <- py_get receipt "name" (PyStr "N/A") ;;
  mime_type <- py_get receipt "mimeType" (PyStr "N/A") ;;
  size <- py_get receipt "size" (PyInt 0) ;;
  url <- py_get receipt "url" (PyStr "N/A") ;;
  ret (result
       +:+ "- Receipt ID: " +:+ py_str receipt_id +:+ LF
       +:+ "  Name: " +:+ py_str name +:+ LF
       +:+ "  Type: " +:+ py_str mime_type +:+ LF
       +:+ "  Size: " +:+ py_str size +:+ " KB" +:+ LF
       +:+ "  Download URL: " +:+ py_str url +:+ LF
       +:+ "  (URL valid for 15 hours)" +:+ LF +:+ LF).

Definition get_expense_receipts (w : World) (expense_id : string) : M string :=
  try_except
    (client <- get_client w ;;
     receipts <- client_get w client ("/expenses/" +:+ expense_id +:+ "/receipts") None ;;
     if negb (truthy receipts) then ret ("No receipts found for expense " +:+ expense_id)
     else
       let result := "Receipts for expense " +:+ expense_id +:+ ":" +:+ LF +:+ LF in
       items <- py_iter receipts ;;
       for_each items get_expense_receipts_block result)
    [except_HTTPStatusError (fun text code =>
       if code =? 404 then ret (expense_not_found expense_id)
       else
         logger ERROR ("HTTP error getting receipts: " +:+ text) ;;
         ret ("Error: " +:+ text));
     except_Exception (fun e =>
       logger ERROR ("Error getting receipts: " +:+ exn_str e) ;;
       ret ("Error: " +:+ exn_str e))].

(** *** [get_expense_receipt] *)

(** The detail text built from the decoded receipt (lines 335-341). *)
Definition get_expense_receipt_details (receipt : pyobj) : M string :=
  let result := "Receipt Details:" +:+ LF +:+ LF in
  v <- py_get receipt "id" (PyStr "N/A") ;;
  let result := result +:+ "ID: " +:+ py_str v +:+ LF in
  v <- py_get receipt "name" (PyStr "N/A") ;;
  let result := result +:+ "Name: " +:+ py_str v +:+ LF in
  v <- py_get receipt "mimeType" (PyStr "N/A") ;;
  let result := result +:+ "MIME Type: " +:+ py_str v +:+ LF in
  v <- py_get receipt "size" (PyInt 0) ;;
  let result := result +:+ "Size: " +:+ py_str v +:+ " KB" +:+ LF in
  v <- py_get receipt "url" (PyStr "N/A") ;;
  let result := result +:+ "Download URL: " +:+ py_str v +:+ LF in
  let result := result +:+ "(URL valid for 15 hours)" +:+ LF in
  ret result.

Definition receipt_not_found (expense_id receipt_id : string) : string :=
  "Error: Receipt with ID " +:+ receipt_id +:+ " not found for expense " +:+ expense_id.

Definition get_expense_receipt (w : World) (expense_id receipt_id : string) : M string :=
  try_except
    (client <- get_client w ;;
     receipt <- client_get w client
                  ("/expenses/" +:+ expense_id +:+ "/receipts/" +:+ receipt_id) None ;;
     get_expense_receipt_details receipt)
    [except_HTTPStatusError (fun text code =>
       if code =? 404 then ret (receipt_not_found expense_id receipt_id)
       else
         logger ERROR ("HTTP error getting receipt: " +:+ text) ;;
         ret ("Error: " +:+ text));
     except_Exception (fun e =>
       logger ERROR ("Error getting receipt: " +:+ exn_str e) ;;
       ret ("Error: " +:+ exn_str e))].

(** *** The tool surface *)

(** A call of one of the five registered tools with its arguments. *)
Inductive Call : Type :=
| ListExpenses (status expense_type from_date to_date : option string) (limit : Z)
| GetExpense (expense_id : string)
| UpdateExpense (expense_id : string) (note account_id tax_code_id : option string)
| GetExpenseReceipts (expense_id : string)
| GetExpenseReceipt (expense_id receipt_id : string).

Definition invoke (w : World) (c : Call) : M string :=
  match c with
  | ListExpenses status expense_type from_date to_date limit =>
      list_expenses w status expense_type from_date to_date limit
  | GetExpense expense_id => get_expense w expense_id
  | UpdateExpense expense_id note account_id tax_code_id =>
      update_expense w expense_id note account_id tax_code_id
  | GetExpenseReceipts expense_id => get_expense_receipts w expense_id
  | GetExpenseReceipt expense_id receipt_id => get_expense_receipt w expense_id receipt_id
  end.

End Interpreter.

(** ** Reasoning about runs *)

(** [m] always returns: from every state it yields a value. *)
Definition never_raises {A} (m : M A) : Prop :=
  ∀ s, ∃ a s', m s = (Returned a, s').

(** [m] sends nothing: the list of requests is the same after the run. *)
Definition keeps_requests {A} (m : M A) : Prop :=
  ∀ s, requests (snd (m s)) = requests s.

(** The world raised [e] during the awaited call: in transport, or while
    the reply was decoded. *)
Definition raised_by_world (w : World) (e : Exn) : Prop :=
  (∃ q, transport w q = Raised e)
  ∨ (∃ q r, transport w q = Returned r ∧ decoded r = Raised e).

(** Whatever [m] raises is an instance of [Exception] or was raised by the
    world. *)
Definition raises_within {A} (w : World) (m : M A) : Prop :=
  ∀ s e s', m s = (Raised e, s') → is_Exception e = true ∨ raised_by_world w e.

(** The key is configured: present in the environment and not empty. *)
Definition configured (w : World) (key : string) : Prop :=
  PLEO_API_KEY w = Some key ∧ key ≠ "".

(** The world answers every request with the reply [r]. *)
Definition answers (w : World) (r : Response) : Prop :=
  ∀ q, transport w q = Returned r.

(** What [get_client] raises without a key. *)
Definition not_set : Exn :=
  Exception "ValueError" "PLEO_API_KEY environment variable is not set".

Definition missing_key_message : string :=
  "Error: PLEO_API_KEY environment variable is not set".

(** The request a handler's [client.get] puts on the wire. *)
Definition get_request (key endpoint : string) (query : option (gmap string pyobj)) : Request :=
  {| method := GET; url := PLEO_API_BASE_URL +:+ endpoint;
     headers := client_headers (PleoAPIClient_init key);
     params := query; json := None; timeout := 30 |}.

(** The request [update_expense]'s [client.put] puts on the wire. *)
Definition put_request (key endpoint : string) (data : gmap string string) : Request :=
  {| method := PUT; url := PLEO_API_BASE_URL +:+ endpoint;
     headers := client_headers (PleoAPIClient_init key);
     params := None; json := Some data; timeout := 30 |}.

(** An optional string argument that was supplied and is not empty. *)
Definition supplied_nonempty (a : option string) : Prop :=
  ∃ v, a = Some v ∧ v ≠ "".

Definition filter_keys : gset string :=
  {[ "status"; "type"; "performedAtFrom"; "performedAtTo" ]}.

Definition update_keys : gset string :=
  {[ "note"; "accountId"; "taxCodeId" ]}.

(** The message a handler has for a 404, where it has one. *)
Definition not_found_message (c : Call) : option string :=
  match c with
  | ListExpenses _ _ _ _ _ => None
  | GetExpense expense_id => Some (expense_not_found expense_id)
  | UpdateExpense expense_id _ _ _ => Some (expense_not_found expense_id)
  | GetExpenseReceipts expense_id => Some (expense_not_found expense_id)
  | GetExpenseReceipt expense_id receipt_id =>
      Some (receipt_not_found expense_id receipt_id)
  end.

(** [k] is missing from the object or holds the empty object. *)
Definition absent_or_empty (k : string) (d : list (string * pyobj)) : Prop :=
  dict_lookup k d = None ∨ dict_lookup k d = Some (PyDict []).

(** Two expense payloads that agree on every key other than [amountSettled]
    and [cardTransaction], each of which is missing or the empty object on
    either side. *)
Definition differ_in_empty_objects (d1 d2 : list (string * pyobj)) : Prop :=
  (∀ k, k ≠ "amountSettled" → k ≠ "cardTransaction" →
        dict_lookup k d1 = dict_lookup k d2)
  ∧ absent_or_empty "amountSettled" d1 ∧ absent_or_empty "amountSettled" d2
  ∧ absent_or_empty "cardTransaction" d1 ∧ absent_or_empty "cardTransaction" d2.

(** *** Statements that the handlers do not meet as worded *)

(** "No call of a handler ever ends in a raised exception." *)
Definition handlers_never_propagate : Prop :=
  ∀ py_repr str_chars w c s,
    ∃ text s', invoke py_repr str_chars w c s = (Returned text, s').

(** "A filter key is sent if and only if its argument was supplied." *)
Definition filters_sent_iff_supplied : Prop :=
  ∀ py_repr str_chars w status expense_type from_date to_date limit r,
    r ∈ sent (list_expenses py_repr str_chars w status expense_type from_date to_date limit) →
    ∃ p, params r = Some p
      ∧ (is_Some (p !! "status") ↔ is_Some status)
      ∧ (is_Some (p !! "type") ↔ is_Some expense_type)
      ∧ (is_Some (p !! "performedAtFrom") ↔ is_Some from_date)
      ∧ (is_Some (p !! "performedAtTo") ↔ is_Some to_date)
      ∧ dom p ⊆ {[ "limit" ]} ∪ filter_keys.

(** "Every [update_expense] call without fields returns the validation
    message and sends nothing." *)
Definition no_fields_always_validation_error : Prop :=
  ∀ w expense_id,
    result (update_expense w expense_id None None None) = Returned no_update_fields_message
    ∧ sent (update_expense w expense_id None None None) = [].

(** "Every handler answers an upstream 404 with a message of its own": one
    text per call, whatever error text the 404 reply carries. *)
Definition classifies_404 (py_repr : pyobj → string) (str_chars : string → list string)
    (c : Call) : Prop :=
  ∃ msg, ∀ w key r,
    configured w key → answers w r → status_code r = 404 →
    sent (invoke py_repr str_chars w c) ≠ [] →
    result (invoke py_repr str_chars w c) = Returned msg.

Definition every_handler_classifies_404 : Prop :=
  ∀ py_repr str_chars c, classifies_404 py_repr str_chars c.

(** ** Sample worlds *)

(** A stand-in interpreter for the examples: [repr] is not exercised, and
    the characters of an ASCII [str] are its bytes. *)
Definition sample_repr (o : pyobj) : string := "<" +:+ type_name o +:+ ">".
Definition ascii_chars (s : string) : list string :=
  (fun c => String c "") <$> list_ascii_of_string s.

Definition reply (code : Z) (text : string) (o : pyobj) : Response :=
  {| status_code := code; status_error_text := text; decoded := Returned o |}.

(** An environment holding only [PLEO_API_KEY] (or nothing), and an API
    that gives the same reply to every request. *)
Definition sample_world (key : option string) (r : Response) : World :=
  {| getenv := fun name => if String.eqb name "PLEO_API_KEY" then key else None;
     transport := fun _ => Returned r |}.

Definition sample_expense : list (string * pyobj) :=
  [("id", PyStr "abc-123");
   ("performedAt", PyStr "2024-05-01T10:00:00Z");
   ("amountOriginal", PyDict [("value", PyInt 120); ("currency", PyStr "DKK")]);
   ("type", PyStr "CARD");
   ("status", PyStr "QUEUED");
   ("receiptIds", PyList [PyStr "r-1"; PyStr "r-2"])].

Definition not_found_reply : Response :=
  reply 404 "Client error '404 Not Found' for url 'https://openapi.pleo.io/v1/expenses'" PyNone.

Definition secret_world (r : Response) : World := sample_world (Some "secret") r.

Definition keyless_world : World := sample_world None not_found_reply.

Definition empty_objects_expense : list (string * pyobj) :=
  ("amountSettled", PyDict []) :: ("cardTransaction", PyDict []) :: sample_expense.

(** The world [w] with an API that gives the reply [r] to every request. *)
Definition answering (w : World) (r : Response) : World :=
  {| getenv := getenv w; transport := fun _ => Returned r |}.

(** The header [list_expenses] writes above [n] blocks. *)
Definition found_header (n : Z) : string :=
  "Found " +:+ pretty n +:+ " expense(s):" +:+ LF +:+ LF.

(** ** The rest of the client, and vocabulary for the handlers' runs *)

(** [PleoAPIClient.download_file] (lines 65-70): a GET of [url] as given,
    with no [headers] argument and a timeout of 60.  [Response] does not
    hold the raw body; [content] reads [response.content] off a reply. *)
Definition download_file (content : Response → string) (w : World)
    (self : PleoAPIClient) (url : string) : M string :=
  response <- http_send w {| method := GET; url := url; headers := [];
                             params := None; json := None; timeout := 60 |} ;;
  raise_for_status response ;;
  ret (content response).

(** [m] writes nothing to the log. *)
Definition keeps_log {A} (m : M A) : Prop :=
  ∀ s, log (snd (m s)) = log s.

(** What a handler's clause leaves: a returned text, and either an
    untouched log or one more ERROR record whose tail is the text behind
    "Error: ". *)
Definition reports (s : Effects) (run : Outcome string * Effects) : Prop :=
  ∃ text, fst run = Returned text
    ∧ (log (snd run) = log s
       ∨ ∃ context e,
           log (snd run) = (log s ++ [(ERROR, context +:+ e)])%list
           ∧ text = "Error: " +:+ e).

(** What a run leaves when something that is no instance of [Exception]
    went through the handler: that exception, and an untouched log. *)
Definition interrupted (s : Effects) (run : Outcome string * Effects) : Prop :=
  ∃ cls text, fst run = Raised (BaseException cls text) ∧ log (snd run) = log s.

(** The request a call makes once it has a client. *)
Definition call_request (key : string) (c : Call) : Request :=
  match c with
  | ListExpenses status expense_type from_date to_date limit =>
      get_request key "/expenses"
        (Some (list_expenses_params status expense_type from_date to_date limit))
  | GetExpense expense_id => get_request key ("/expenses/" +:+ expense_id) None
  | UpdateExpense expense_id note account_id tax_code_id =>
      put_request key ("/expenses/" +:+ expense_id)
        (update_expense_data note account_id tax_code_id)
  | GetExpenseReceipts expense_id =>
      get_request key ("/expenses/" +:+ expense_id +:+ "/receipts") None
  | GetExpenseReceipt expense_id receipt_id =>
      get_request key ("/expenses/" +:+ expense_id +:+ "/receipts/" +:+ receipt_id) None
  end.

Definition is_update (c : Call) : bool :=
  match c with
  | UpdateExpense _ _ _ _ => true
  | _ => false
  end.

(** The text of the [AttributeError] for [o.get] on an [o] that is no
    [dict]. *)
Definition no_get_attribute (o : pyobj) : string :=
  "'" +:+ type_name o +:+ "' object has no attribute 'get'".

Definition is_dict (o : pyobj) : bool :=
  match o with
  | PyDict _ => true
  | _ => false
  end.

(** The three tools that render the reply with [.get] on its top level. *)
Definition renders_object (c : Call) : bool :=
  match c with
  | ListExpenses _ _ _ _ _ | GetExpense _ | GetExpenseReceipt _ _ => true
  | _ => false
  end.

(** An element of [data] that [list_expenses] can render: an object whose
    [amountOriginal], when there is one, is an object too. *)
Definition well_formed_expense (e : pyobj) : bool :=
  match e with
  | PyDict d =>
      match dict_lookup "amountOriginal" d with
      | None | Some (PyDict _) => true
      | Some _ => false
      end
  | _ => false
  end.

(** The object whose [.get] fails when [list_expenses] meets an element
    that is not well formed: the element, or its [amountOriginal]. *)
Definition offending (e : pyobj) : pyobj :=
  match e with
  | PyDict d =>
      match dict_lookup "amountOriginal" d with
      | Some v => v
      | None => e
      end
  | _ => e
  end.

(** The lines one expense adds to the listing. *)
Definition expense_block (py_repr : pyobj → string) (e : pyobj) : string :=
  match result (list_expenses_block py_repr "" e) with
  | Returned block => block
  | Raised _ => ""
  end.

(** The lines one receipt adds to the list of receipts. *)
Definition receipt_block (py_repr : pyobj → string) (e : pyobj) : string :=
  match result (get_expense_receipts_block py_repr "" e) with
  | Returned block => block
  | Raised _ => ""
  end.

(** The blocks of a list of items, one after the other. *)
Definition blocks (block : pyobj → string) (xs : list pyobj) : string :=
  foldr (fun x rest => block x +:+ rest) "" xs.

Definition receipts_header (expense_id : string) : string :=
  "Receipts for expense " +:+ expense_id +:+ ":" +:+ LF +:+ LF.

(** ** [test_server.py]: the id read back from a listing *)

(** [s] without its first [n] characters. *)
Fixpoint skip (n : nat) (s : string) : string :=
  match n, s with
  | O, _ => s
  | S _, "" => ""
  | S n', String _ rest => skip n' rest
  end.

(** The leftmost occurrence of [sep] in [s]: the text before it and the
    text after it. *)
Fixpoint find_first (sep s : string) : option (string * string) :=
  if String.prefix sep s then Some ("", skip (String.length sep) s)
  else
    match s with
    | "" => None
    | String c rest =>
        match find_first sep rest with
        | Some (before, after) => Some (String c before, after)
        | None => None
        end
    end.

(** [sub in s]. *)
Definition py_contains (sub s : string) : bool :=
  match find_first sub s with
  | Some _ => true
  | None => false
  end.

(** [s.split(sep)] for a non-empty [sep]: the pieces between successive
    occurrences, left to right.  Every occurrence takes at least one
    character, so the length of [s] bounds their number. *)
Fixpoint py_split_go (fuel : nat) (sep s : string) : list string :=
  match fuel with
  | O => [s]
  | S fuel' =>
      match find_first sep s with
      | Some (before, after) => before :: py_split_go fuel' sep after
      | None => [s]
      end
  end.

Definition py_split (sep s : string) : list string :=
  py_split_go (String.length s) sep s.

(** Lines 28-34 of [test_server.py]: [first_expense_id] after Test 1, read
    from the text [list_expenses] returned; [None] when "ID:" does not
    occur or the [IndexError] is caught. *)
Definition first_expense_id (recent_expenses : string) : option string :=
  if py_contains "ID:" recent_expenses then
    match py_split "ID: " recent_expenses !! 1%nat with
    | Some piece => py_split LF piece !! 0%nat
    | None => None
    end
  else None.

(** The first piece of a split. *)
Definition first_piece (sep s : string) : string :=
  match find_first sep s with
  | Some (before, _) => before
  | None => s
  end.

(** [c] does not occur in [s]. *)
Fixpoint lacks (c : ascii) (s : string) : bool :=
  match s with
  | "" => true
  | String x rest => negb (Ascii.eqb c x) && lacks c rest
  end.

(** No occurrence of [sep] in [u +:+ t] starts inside [u]. *)
Fixpoint no_start (sep u t : string) : bool :=
  match u with
  | "" => true
  | String c rest => negb (String.prefix sep (u +:+ t)) && no_start sep rest t
  end.

(** What [list_expenses] shows as the id of an expense. *)
Definition shown_id (py_repr : pyobj → string) (d : list (string * pyobj)) : string :=
  py_str py_repr
    (match dict_lookup "id" d with Some v => v | None => PyStr "N/A" end).

(** ** The texts of the detail views, line by line *)

(** What [o.get(k, default)] gives for an object with the items [d]. *)
Definition field (d : list (string * pyobj)) (k : string) (default : pyobj) : pyobj :=
  match dict_lookup k d with
  | Some v => v
  | None => default
  end.

(** The items of an object; nothing for any other value. *)
Definition items_of (o : pyobj) : list (string * pyobj) :=
  match o with
  | PyDict d => d
  | _ => []
  end.

(** A value the detail view can take for an optional sub-record: falsy,
    or an object. *)
Definition object_or_falsy (v : pyobj) : bool := negb (truthy v) || is_dict v.

(** The "Settled Amount" line: there when [amountSettled] is truthy, and
    only then. *)
Definition settled_amount_line (py_repr : pyobj → string)
    (d : list (string * pyobj)) : string :=
  let amount_settled := field d "amountSettled" (PyDict []) in
  if truthy amount_settled then
    "Settled Amount: "
    +:+ py_str py_repr (field (items_of amount_settled) "value" (PyInt 0)) +:+ " "
    +:+ py_str py_repr (field (items_of amount_settled) "currency" (PyStr "N/A"))
    +:+ LF
  else "".

(** The "Merchant" line of the card transaction [c]: there when its
    [merchant] is truthy. *)
Definition merchant_line (py_repr : pyobj → string)
    (c : list (string * pyobj)) : string :=
  let merchant := field c "merchant" (PyDict []) in
  if truthy merchant then
    "  Merchant: "
    +:+ py_str py_repr (field (items_of merchant) "name" (PyStr "N/A")) +:+ " (ID: "
    +:+ py_str py_repr (field (items_of merchant) "id" (PyStr "N/A")) +:+ ")" +:+ LF
  else "".

(** The "Card Transaction" block: there when [cardTransaction] is truthy,
    and only then. *)
Definition card_transaction_block (py_repr : pyobj → string)
    (d : list (string * pyobj)) : string :=
  let card_transaction := field d "cardTransaction" (PyDict []) in
  if truthy card_transaction then
    LF +:+ "Card Transaction:" +:+ LF
    +:+ "  State: "
    +:+ py_str py_repr (field (items_of card_transaction) "state" (PyStr "N/A")) +:+ LF
    +:+ "  Authorized At: "
    +:+ py_str py_repr (field (items_of card_transaction) "authorizedAt" (PyStr "N/A"))
    +:+ LF
    +:+ "  Settled At: "
    +:+ py_str py_repr (field (items_of card_transaction) "settledAt" (PyStr "N/A"))
    +:+ LF
    +:+ merchant_line py_repr (items_of card_transaction)
  else "".

(** What stands behind "Receipt IDs: ": the ids joined by ", ", or "None"
    when [receiptIds] is falsy; the join can raise. *)
Definition receipt_ids_text (str_chars : string → list string)
    (d : list (string * pyobj)) : Outcome string :=
  let receipt_ids := field d "receiptIds" (PyList []) in
  if truthy receipt_ids then result (py_join str_chars ", " receipt_ids)
  else Returned "None".

(** An expense object every part of which [get_expense] can read:
    [amountOriginal] is an object when present, and [amountSettled],
    [cardTransaction] and the transaction's [merchant] are objects when
    truthy. *)
Definition renderable_expense (d : list (string * pyobj)) : bool :=
  is_dict (field d "amountOriginal" (PyDict []))
  && object_or_falsy (field d "amountSettled" (PyDict []))
  && object_or_falsy (field d "cardTransaction" (PyDict []))
  && object_or_falsy
       (field (items_of (field d "cardTransaction" (PyDict []))) "merchant" (PyDict [])).

(** The text of [get_expense] for the expense object [d], with [joined]
    behind "Receipt IDs: ". *)
Definition expense_details_text (py_repr : pyobj → string)
    (d : list (string * pyobj)) (joined : string) : string :=
  "Expense Details:" +:+ LF +:+ LF
  +:+ "ID: " +:+ py_str py_repr (field d "id" (PyStr "N/A")) +:+ LF
  +:+ "Employee ID: " +:+ py_str py_repr (field d "employeeId" (PyStr "N/A")) +:+ LF
  +:+ "Employee Code: " +:+ py_str py_repr (field d "employeeCode" (PyStr "N/A")) +:+ LF
  +:+ "Department ID: " +:+ py_str py_repr (field d "departmentId" (PyStr "N/A")) +:+ LF
  +:+ "Performed At: " +:+ py_str py_repr (field d "performedAt" (PyStr "N/A")) +:+ LF
  +:+ "Original Amount: "
  +:+ py_str py_repr
        (field (items_of (field d "amountOriginal" (PyDict []))) "value" (PyInt 0))
  +:+ " "
  +:+ py_str py_repr
        (field (items_of (field d "amountOriginal" (PyDict []))) "currency" (PyStr "N/A"))
  +:+ LF
  +:+ settled_amount_line py_repr d
  +:+ "Note: " +:+ py_str py_repr (field d "note" (PyStr "No note")) +:+ LF
  +:+ "Type: " +:+ py_str py_repr (field d "type" (PyStr "N/A")) +:+ LF
  +:+ "Status: " +:+ py_str py_repr (field d "status" (PyStr "N/A")) +:+ LF
  +:+ "Account ID: " +:+ py_str py_repr (field d "accountId" (PyStr "N/A")) +:+ LF
  +:+ "Tax Code ID: " +:+ py_str py_repr (field d "taxCodeId" (PyStr "N/A")) +:+ LF
  +:+ "Receipt IDs: " +:+ joined +:+ LF
  +:+ card_transaction_block py_repr d
  +:+ LF +:+ "Created At: " +:+ py_str py_repr (field d "createdAt" (PyStr "N/A")) +:+ LF
  +:+ "Updated At: " +:+ py_str py_repr (field d "updatedAt" (PyStr "N/A")) +:+ LF.

(** The text of [get_expense_receipt] for the receipt object [d]. *)
Definition receipt_details_text (py_repr : pyobj → string)
    (d : list (string * pyobj)) : string :=
  "Receipt Details:" +:+ LF +:+ LF
  +:+ "ID: " +:+ py_str py_repr (field d "id" (PyStr "N/A")) +:+ LF
  +:+ "Name: " +:+ py_str py_repr (field d "name" (PyStr "N/A")) +:+ LF
  +:+ "MIME Type: " +:+ py_str py_repr (field d "mimeType" (PyStr "N/A")) +:+ LF
  +:+ "Size: " +:+ py_str py_repr (field d "size" (PyInt 0)) +:+ " KB" +:+ LF
  +:+ "Download URL: " +:+ py_str py_repr (field d "url" (PyStr "N/A")) +:+ LF
  +:+ "(URL valid for 15 hours)" +:+ LF.

Definition settled_expense : list (string * pyobj) :=
  ("amountSettled", PyDict [("value", PyInt 16); ("currency", PyStr "EUR")])
  :: sample_expense.

(** A world in which the task is cancelled while the request is awaited. *)
Definition cancelled_world : World :=
  {| getenv := fun name => if String.eqb name "PLEO_API_KEY" then Some "secret" else None;
     transport := fun _ => Raised (BaseException "CancelledError" "") |}.

(** An API whose transport raises [e] for every request. *)
Definition unreachable_world (key : option string) (e : Exn) : World :=
  {| getenv := fun name => if String.eqb name "PLEO_API_KEY" then key else None;
     transport := fun _ => Raised e |}.

Definition server_error_reply : Response :=
  {| status_code := 500;
     status_error_text := "Server error '500 Internal Server Error' for url 'https://openapi.pleo.io/v1/expenses'";
     decoded := Returned PyNone |}.

Definition undecodable_reply : Response :=
  {| status_code := 204; status_error_text := "";
     decoded := Raised (Exception "JSONDecodeError"
                          "Expecting value: line 1 column 1 (char 0)") |}.

Definition second_expense : list (string * pyobj) := [("id", PyStr "def-456")].

Definition null_amount_expense : list (string * pyobj) :=
  [("id", PyStr "bad-1"); ("amountOriginal", PyNone)].

Definition listing_reply (xs : list pyobj) : Response :=
  reply 200 "" (PyDict [("data", PyList xs)]).

Definition sample_receipt : list (string * pyobj) :=
  [("id", PyStr "r-1"); ("name", PyStr "lunch.pdf");
   ("mimeType", PyStr "application/pdf"); ("size", PyInt 12)].

(** * Properties *)

(** ** Runs that always return *)

Lemma never_raises_ret {A} (a : A) : never_raises (ret a).
Proof. intros s. by exists a, s. Qed.

Lemma never_raises_logger lvl msg : never_raises (logger lvl msg).
Proof. intros s. unfold logger. by eexists _, _. Qed.

Lemma never_raises_bind {A B} (m : M A) (k : A → M B) :
  never_raises m → (∀ a, never_raises (k a)) → never_raises (bind m k).
Proof.
  intros Hm Hk s. unfold bind.
  destruct (Hm s) as (a & s' & ->). apply Hk.
Qed.

Lemma never_raises_if {A} (b : bool) (m1 m2 : M A) :
  never_raises m1 → never_raises m2 → never_raises (if b then m1 else m2).
Proof. by destruct b. Qed.

Create HintDb runs discriminated.
#[local] Hint Resolve never_raises_ret never_raises_logger never_raises_bind
  never_raises_if : runs.

(** A lone [except Exception] clause takes every instance of [Exception]
    and nothing else. *)
Lemma catch_all_total {A} (h : Exn → M A) :
  (∀ e, never_raises (h e)) →
  ∀ e, is_Exception e = true →
    ∃ m, select_clause e [except_Exception h] = Some m ∧ never_raises m.
Proof. intros Hh e He. exists (h e). split; [by destruct e | apply Hh]. Qed.

(** So does an [except httpx.HTTPStatusError] clause followed by
    [except Exception]. *)
Lemma status_then_catch_all_total {A} (h1 : string → Z → M A) (h2 : Exn → M A) :
  (∀ text code, never_raises (h1 text code)) →
  (∀ e, never_raises (h2 e)) →
  ∀ e, is_Exception e = true →
    ∃ m, select_clause e [except_HTTPStatusError h1; except_Exception h2] = Some m
      ∧ never_raises m.
Proof.
  intros H1 H2 [text code|cls text|cls text] He; try discriminate He; simpl; eauto.
Qed.

(** No clause takes what is not an instance of [Exception]. *)
Lemma select_clause_base {A} (cs : list (ExceptClause A)) cls text :
  select_clause (BaseException cls text) cs = None.
Proof. induction cs as [|[h|h] cs IH]; [done | exact IH | exact IH]. Qed.

(** A [try] whose body raises only instances of [Exception] or what the
    world raised, and whose clauses take every instance of [Exception] with
    handlers that always return: it returns, or it lets through a
    [BaseException] that the world raised. *)
Lemma try_except_outcome {A} w (body : M A) (cs : list (ExceptClause A)) s :
  raises_within w body →
  (∀ e, is_Exception e = true → ∃ h, select_clause e cs = Some h ∧ never_raises h) →
  (∃ a s', try_except body cs s = (Returned a, s'))
  ∨ (∃ cls text s',
        try_except body cs s = (Raised (BaseException cls text), s')
        ∧ raised_by_world w (BaseException cls text)).
Proof.
  intros Hbody Hcatch. unfold try_except.
  destruct (body s) as [[a|e] s'] eqn:Hrun.
  - left. by exists a, s'.
  - destruct (is_Exception e) eqn:He.
    + left. destruct (Hcatch e He) as (h & -> & Hh). apply Hh.
    + destruct (Hbody _ _ _ Hrun) as [Hexc|Hworld]; [congruence |].
      destruct e as [| |cls text]; try discriminate He.
      rewrite select_clause_base. right. by exists cls, text, s'.
Qed.

(** ** Strings *)

Lemma append_cons x (a b : string) : String x a +:+ b = String x (a +:+ b).
Proof. reflexivity. Qed.

Lemma append_assoc (a b c : string) : (a +:+ b) +:+ c = a +:+ b +:+ c.
Proof. induction a as [|x a IH]; [done |]. by rewrite !append_cons, IH. Qed.

Lemma append_empty_r (a : string) : a +:+ "" = a.
Proof. induction a as [|x a IH]; [done |]. by rewrite append_cons, IH. Qed.

Lemma append_empty_l (a : string) : "" +:+ a = a.
Proof. reflexivity. Qed.

Section Claims.

Variable py_repr : pyobj → string.
Variable str_chars : string → list string.

(** ** What a handler's body can raise *)

Lemma within_ret {A} w (a : A) : raises_within w (ret a).
Proof. by intros s e s'. Qed.

Lemma within_raise {A} w (e : Exn) :
  is_Exception e = true → raises_within w (raise (A := A) e).
Proof. intros He s e' s' [= <- _]. by left. Qed.

Lemma within_bind {A B} w (m : M A) (k : A → M B) :
  raises_within w m → (∀ a, raises_within w (k a)) → raises_within w (bind m k).
Proof.
  intros Hm Hk s e s'. unfold bind.
  destruct (m s) as [[a|e0] s0] eqn:Hrun.
  - apply Hk.
  - intros [= <- <-]. by apply (Hm _ _ _ Hrun).
Qed.

Lemma within_py_get w o key default : raises_within w (py_get o key default).
Proof. destruct o; first [apply within_ret | by apply within_raise]. Qed.

Lemma within_py_len w o : raises_within w (py_len str_chars o).
Proof. destruct o; first [apply within_ret | by apply within_raise]. Qed.

Lemma within_py_iter w o : raises_within w (py_iter str_chars o).
Proof. destruct o; first [apply within_ret | by apply within_raise]. Qed.

Lemma within_for_each {A} w (step : A → pyobj → M A) xs acc :
  (∀ a x, raises_within w (step a x)) → raises_within w (for_each xs step acc).
Proof.
  intros Hstep. revert acc.
  induction xs as [|x xs IH]; intros acc; simpl.
  - apply within_ret.
  - apply within_bind; [apply Hstep | apply IH].
Qed.

Lemma within_join_items w sep i xs acc : raises_within w (join_items sep i xs acc).
Proof.
  revert i acc. induction xs as [|x xs IH]; intros i acc; simpl.
  - apply within_ret.
  - destruct x; first [by apply within_raise | apply IH].
Qed.

Lemma within_py_join w sep o : raises_within w (py_join str_chars sep o).
Proof.
  destruct o; simpl; try (by apply within_raise);
    (apply within_bind; [apply within_ret | intros; apply within_join_items]).
Qed.

Lemma within_get_client w : raises_within w (get_client w).
Proof.
  unfold get_client.
  repeat case_match; first [apply within_ret | by apply within_raise].
Qed.

(** The awaited call: a transport failure and a decoding failure come from
    the world, a refused status is an [HTTPStatusError]. *)
Lemma within_client_get w self endpoint query :
  raises_within w (client_get w self endpoint query).
Proof.
  intros s e s'.
  unfold client_get, bind, http_send, raise_for_status, response_json, of_outcome.
  destruct (transport w _) as [r|e0] eqn:Hsend.
  - destruct (is_success r); cbn.
    + destruct (decoded r) as [o|e1] eqn:Hbody; intros [= <- _].
      right. right. by eexists _, r.
    + intros [= <- _]. by left.
  - intros [= <- _]. right. left. by eexists.
Qed.

Lemma within_client_put w self endpoint data :
  raises_within w (client_put w self endpoint data).
Proof.
  intros s e s'.
  unfold client_put, bind, http_send, raise_for_status, response_json, of_outcome.
  destruct (transport w _) as [r|e0] eqn:Hsend.
  - destruct (is_success r); cbn.
    + destruct (decoded r) as [o|e1] eqn:Hbody; intros [= <- _].
      right. right. by eexists _, r.
    + intros [= <- _]. by left.
  - intros [= <- _]. right. left. by eexists.
Qed.

#[local] Hint Resolve within_ret within_py_get within_py_len within_py_iter
  within_join_items within_py_join within_get_client within_client_get
  within_client_put : runs.

(** Splits a goal [raises_within w m] along the binds and branches of [m]. *)
Ltac within :=
  repeat first
    [ progress auto with runs
    | apply within_bind; [ | intros ? ]
    | apply within_for_each; intros ? ?
    | match goal with
      | |- raises_within _ (if ?b then _ else _) => destruct b
      end ].

Lemma within_list_expenses_block w summary expense :
  raises_within w (list_expenses_block py_repr summary expense).
Proof. unfold list_expenses_block. within. Qed.

Lemma within_get_expense_details w expense :
  raises_within w (get_expense_details py_repr str_chars expense).
Proof. unfold get_expense_details. within. Qed.

Lemma within_get_expense_receipts_block w text receipt :
  raises_within w (get_expense_receipts_block py_repr text receipt).
Proof. unfold get_expense_receipts_block. within. Qed.

Lemma within_get_expense_receipt_details w receipt :
  raises_within w (get_expense_receipt_details py_repr receipt).
Proof. unfold get_expense_receipt_details. within. Qed.

#[local] Hint Resolve within_list_expenses_block within_get_expense_details
  within_get_expense_receipts_block within_get_expense_receipt_details : runs.

(** C1 (amended).  Every failure that is an instance of [Exception] (the
    configuration error, an HTTP status error, a transport or decoding
    error, an attribute or type error while rendering) is caught inside the
    handler and turned into a returned string.  A call of a handler ends in
    a raised exception only when the world raised, during the awaited HTTP
    call, something that is no instance of [Exception] (a cancellation, an
    interrupt): then that exception goes on to the caller. *)
Theorem handlers_catch_exceptions (w : World) (c : Call) (s : Effects) :
  (∃ text s', invoke py_repr str_chars w c s = (Returned text, s'))
  ∨ (∃ cls text s',
        invoke py_repr str_chars w c s = (Raised (BaseException cls text), s')
        ∧ raised_by_world w (BaseException cls text)).
Proof.
  destruct c; simpl;
    unfold list_expenses, get_expense, update_expense, get_expense_receipts,
      get_expense_receipt.
  - apply try_except_outcome; [within |].
    apply catch_all_total. intros; auto with runs.
  - apply try_except_outcome; [within |].
    apply status_then_catch_all_total; intros; auto with runs.
  - apply try_except_outcome; [within |].
    apply status_then_catch_all_total; intros; auto with runs.
  - apply try_except_outcome; [within |].
    apply status_then_catch_all_total; intros; auto with runs.
  - apply try_except_outcome; [within |].
    apply status_then_catch_all_total; intros; auto with runs.
Qed.

(** ** Runs that send nothing *)

Lemma keeps_ret {A} (a : A) : keeps_requests (ret a).
Proof. by intros s. Qed.

Lemma keeps_raise {A} (e : Exn) : keeps_requests (raise (A := A) e).
Proof. by intros s. Qed.

Lemma keeps_of_outcome {A} (o : Outcome A) : keeps_requests (of_outcome o).
Proof. by intros s. Qed.

Lemma keeps_logger lvl msg : keeps_requests (logger lvl msg).
Proof. by intros s. Qed.

Lemma keeps_bind {A B} (m : M A) (k : A → M B) :
  keeps_requests m → (∀ a, keeps_requests (k a)) → keeps_requests (bind m k).
Proof.
  intros Hm Hk s. unfold bind. specialize (Hm s).
  destruct (m s) as [[a|e] s']; simpl in *; [by rewrite Hk | done].
Qed.

Lemma keeps_py_get o key default : keeps_requests (py_get o key default).
Proof. by destruct o. Qed.

Lemma keeps_py_len o : keeps_requests (py_len str_chars o).
Proof. by destruct o. Qed.

Lemma keeps_py_iter o : keeps_requests (py_iter str_chars o).
Proof. by destruct o. Qed.

Lemma keeps_for_each {A} (step : A → pyobj → M A) xs acc :
  (∀ a x, keeps_requests (step a x)) → keeps_requests (for_each xs step acc).
Proof.
  intros Hstep. revert acc.
  induction xs as [|x xs IH]; intros acc; simpl.
  - apply keeps_ret.
  - apply keeps_bind; [apply Hstep | apply IH].
Qed.

Lemma keeps_join_items sep i xs acc : keeps_requests (join_items sep i xs acc).
Proof.
  revert i acc. induction xs as [|x xs IH]; intros i acc; simpl.
  - apply keeps_ret.
  - destruct x; first [apply keeps_raise | apply IH].
Qed.

Lemma keeps_py_join sep o : keeps_requests (py_join str_chars sep o).
Proof.
  destruct o; simpl; try apply keeps_raise;
    (apply keeps_bind; [apply keeps_ret | intros; apply keeps_join_items]).
Qed.

Lemma keeps_raise_for_status r : keeps_requests (raise_for_status r).
Proof. unfold raise_for_status. by case_match. Qed.

#[local] Hint Resolve keeps_ret keeps_raise keeps_of_outcome keeps_logger
  keeps_py_get keeps_py_len keeps_py_iter keeps_join_items keeps_py_join
  keeps_raise_for_status : runs.

(** Splits a goal [keeps_requests m] along the binds and branches of [m]. *)
Ltac keeps :=
  repeat first
    [ progress auto with runs
    | apply keeps_bind; [ | intros ? ]
    | apply keeps_for_each; intros ? ?
    | match goal with
      | |- keeps_requests (if ?b then _ else _) => destruct b
      end ].

Lemma keeps_list_expenses_block summary expense :
  keeps_requests (list_expenses_block py_repr summary expense).
Proof. unfold list_expenses_block. keeps. Qed.

Lemma keeps_get_expense_details expense :
  keeps_requests (get_expense_details py_repr str_chars expense).
Proof. unfold get_expense_details. keeps. Qed.

Lemma keeps_get_expense_receipts_block text receipt :
  keeps_requests (get_expense_receipts_block py_repr text receipt).
Proof. unfold get_expense_receipts_block. keeps. Qed.

Lemma keeps_get_expense_receipt_details receipt :
  keeps_requests (get_expense_receipt_details py_repr receipt).
Proof. unfold get_expense_receipt_details. keeps. Qed.

#[local] Hint Resolve keeps_list_expenses_block keeps_get_expense_details
  keeps_get_expense_receipts_block keeps_get_expense_receipt_details : runs.

(** The clauses of a [try] send nothing, so its requests are the body's. *)
Lemma try_except_requests {A} (body : M A) (cs : list (ExceptClause A)) s :
  (∀ e h, select_clause e cs = Some h → keeps_requests h) →
  requests (snd (try_except body cs s)) = requests (snd (body s)).
Proof.
  intros Hcs. unfold try_except.
  destruct (body s) as [[a|e] s']; simpl; [done |].
  destruct (select_clause e cs) as [h|] eqn:Hsel; [|done].
  apply (Hcs _ _ Hsel).
Qed.

Lemma catch_all_keeps {A} (h : Exn → M A) :
  (∀ e, keeps_requests (h e)) →
  ∀ e m, select_clause e [except_Exception h] = Some m → keeps_requests m.
Proof. intros Hh e m. destruct e; simpl; intros [= <-]; apply Hh. Qed.

Lemma status_then_catch_all_keeps {A} (h1 : string → Z → M A) (h2 : Exn → M A) :
  (∀ text code, keeps_requests (h1 text code)) →
  (∀ e, keeps_requests (h2 e)) →
  ∀ e m,
    select_clause e [except_HTTPStatusError h1; except_Exception h2] = Some m →
    keeps_requests m.
Proof. intros H1 H2 e m. destruct e; simpl; intros [= <-]; auto. Qed.

(** ** The client *)

Lemma get_client_configured w key :
  configured w key → get_client w = ret (PleoAPIClient_init key).
Proof.
  intros [Hkey Hne]. unfold get_client. rewrite Hkey.
  destruct key; [done | reflexivity].
Qed.

Lemma get_client_cases w :
  (∃ key, configured w key) ∨ get_client w = raise not_set.
Proof.
  unfold get_client, configured.
  destruct (PLEO_API_KEY w) as [[|c key]|]; [by right | | by right].
  left. by eexists.
Qed.

Lemma get_client_absent w : PLEO_API_KEY w = None → get_client w = raise not_set.
Proof. intros H. unfold get_client. by rewrite H. Qed.

(** After [client.get], whatever follows without sending leaves exactly
    the one request on the wire. *)
Lemma client_get_requests {A} w key endpoint query (k : pyobj → M A) s :
  (∀ o, keeps_requests (k o)) →
  requests (snd (bind (client_get w (PleoAPIClient_init key) endpoint query) k s))
  = (requests s ++ [get_request key endpoint query])%list.
Proof.
  intros Hk. unfold bind, client_get, bind, http_send. simpl.
  destruct (transport w _) as [r|e]; simpl; [|done].
  pose proof (keeps_raise_for_status r
                (after_send s (get_request key endpoint query))) as Hr.
  destruct (raise_for_status r _) as [[[]|e] s1]; simpl in *; [|done].
  unfold response_json, of_outcome.
  destruct (decoded r) as [o|e]; simpl; [|done].
  by rewrite Hk.
Qed.

Lemma client_put_requests {A} w key endpoint data (k : pyobj → M A) s :
  (∀ o, keeps_requests (k o)) →
  requests (snd (bind (client_put w (PleoAPIClient_init key) endpoint data) k s))
  = (requests s ++ [put_request key endpoint data])%list.
Proof.
  intros Hk. unfold bind, client_put, bind, http_send. simpl.
  destruct (transport w _) as [r|e]; simpl; [|done].
  pose proof (keeps_raise_for_status r
                (after_send s (put_request key endpoint data))) as Hr.
  destruct (raise_for_status r _) as [[[]|e] s1]; simpl in *; [|done].
  unfold response_json, of_outcome.
  destruct (decoded r) as [o|e]; simpl; [|done].
  by rewrite Hk.
Qed.

Lemma bind_ret_l {A B} (a : A) (k : A → M B) s : bind (ret a) k s = k a s.
Proof. reflexivity. Qed.

Lemma bind_raise_l {A B} (e : Exn) (k : A → M B) s : bind (raise e) k s = (Raised e, s).
Proof. reflexivity. Qed.

Lemma bind_run {A B} (m : M A) (k : A → M B) s :
  bind m k s
  = match m s with
    | (Returned a, s') => k a s'
    | (Raised e, s') => (Raised e, s')
    end.
Proof. reflexivity. Qed.

(** A [try] depends on its body only through the body's run. *)
Lemma try_except_ext {A} (body1 body2 : M A) cs s :
  body1 s = body2 s → try_except body1 cs s = try_except body2 cs s.
Proof. unfold try_except. by intros ->. Qed.

(** ** What each handler sends *)

Lemma list_expenses_sent w key status expense_type from_date to_date limit :
  configured w key →
  sent (list_expenses py_repr str_chars w status expense_type from_date to_date limit)
  = [get_request key "/expenses"
       (Some (list_expenses_params status expense_type from_date to_date limit))].
Proof.
  intros Hkey. unfold sent, list_expenses.
  rewrite try_except_requests by (apply catch_all_keeps; intros; keeps).
  rewrite (get_client_configured _ _ Hkey), bind_ret_l.
  rewrite client_get_requests; [done |]. intros o. keeps.
Qed.

Lemma get_expense_sent w key expense_id :
  configured w key →
  sent (get_expense py_repr str_chars w expense_id)
  = [get_request key ("/expenses/" +:+ expense_id) None].
Proof.
  intros Hkey. unfold sent, get_expense.
  rewrite try_except_requests by (apply status_then_catch_all_keeps; intros; keeps).
  rewrite (get_client_configured _ _ Hkey), bind_ret_l.
  rewrite client_get_requests; [done |]. intros o. keeps.
Qed.

Lemma update_expense_sent w key expense_id note account_id tax_code_id :
  configured w key →
  sent (update_expense w expense_id note account_id tax_code_id)
  = if bool_decide (update_expense_data note account_id tax_code_id = ∅) then []
    else [put_request key ("/expenses/" +:+ expense_id)
            (update_expense_data note account_id tax_code_id)].
Proof.
  intros Hkey. unfold sent, update_expense.
  rewrite try_except_requests by (apply status_then_catch_all_keeps; intros; keeps).
  rewrite (get_client_configured _ _ Hkey), bind_ret_l.
  case_bool_decide; [done |].
  rewrite client_put_requests; [done |]. intros o. keeps.
Qed.

Lemma get_expense_receipts_sent w key expense_id :
  configured w key →
  sent (get_expense_receipts py_repr str_chars w expense_id)
  = [get_request key ("/expenses/" +:+ expense_id +:+ "/receipts") None].
Proof.
  intros Hkey. unfold sent, get_expense_receipts.
  rewrite try_except_requests by (apply status_then_catch_all_keeps; intros; keeps).
  rewrite (get_client_configured _ _ Hkey), bind_ret_l.
  rewrite client_get_requests; [done |]. intros o. keeps.
Qed.

Lemma get_expense_receipt_sent w key expense_id receipt_id :
  configured w key →
  sent (get_expense_receipt py_repr w expense_id receipt_id)
  = [get_request key ("/expenses/" +:+ expense_id +:+ "/receipts/" +:+ receipt_id) None].
Proof.
  intros Hkey. unfold sent, get_expense_receipt.
  rewrite try_except_requests by (apply status_then_catch_all_keeps; intros; keeps).
  rewrite (get_client_configured _ _ Hkey), bind_ret_l.
  rewrite client_get_requests; [done |]. intros o. keeps.
Qed.

Lemma update_expense_without_client w expense_id note account_id tax_code_id :
  get_client w = raise not_set →
  sent (update_expense w expense_id note account_id tax_code_id) = [].
Proof.
  intros Hraise. unfold sent, update_expense, try_except.
  by rewrite Hraise, bind_raise_l.
Qed.

(** Without a client every handler stops before the request: it logs the
    error and returns its text. *)
Lemma invoke_without_client w c s :
  get_client w = raise not_set →
  ∃ s', invoke py_repr str_chars w c s = (Returned missing_key_message, s')
        ∧ requests s' = requests s.
Proof.
  intros Hraise.
  destruct c; simpl;
    unfold list_expenses, get_expense, update_expense, get_expense_receipts,
      get_expense_receipt, try_except;
    rewrite Hraise, bind_raise_l; simpl; by eexists.
Qed.

Lemma sent_without_client w c :
  get_client w = raise not_set → sent (invoke py_repr str_chars w c) = [].
Proof.
  intros Hraise. unfold sent.
  destruct (invoke_without_client w c no_effects Hraise) as (s' & -> & Hreq).
  exact Hreq.
Qed.

(** C7.  When [PLEO_API_KEY] is absent from the environment, importing the
    module only logs a warning, and a call of any of the five tools returns
    the text of the configuration error ("Error: PLEO_API_KEY environment
    variable is not set"): the handler returns normally and no request has
    been added to those sent. *)
Theorem missing_key_reported (w : World) (c : Call) (s : Effects) :
  PLEO_API_KEY w = None →
  module_init w no_effects
  = (Returned tt,
     {| requests := [];
        log := [(WARNING, "PLEO_API_KEY environment variable not set")] |})
  ∧ ∃ s', invoke py_repr str_chars w c s = (Returned missing_key_message, s')
          ∧ requests s' = requests s.
Proof.
  intros Habsent. split.
  - unfold module_init. by rewrite Habsent.
  - apply invoke_without_client. by apply get_client_absent.
Qed.

(** ** Query parameters of [list_expenses] *)

Lemma truthy_optional (a : option string) :
  truthy (of_optional a) = true ↔ supplied_nonempty a.
Proof.
  unfold supplied_nonempty. destruct a as [v|]; simpl.
  - destruct v as [|c v]; simpl; split; try done.
    + by intros (v' & [= <-] & Hne).
    + intros _. by eexists.
  - split; [done | by intros (v & ? & _)].
Qed.

(** What the parameters hold under each key. *)
Lemma list_expenses_params_lookup status expense_type from_date to_date limit k :
  list_expenses_params status expense_type from_date to_date limit !! k =
    if decide (k = "limit") then Some (PyInt (Z.min limit 100))
    else if decide (k = "status") then
      (if truthy (of_optional status) then Some (of_optional status) else None)
    else if decide (k = "type") then
      (if truthy (of_optional expense_type) then Some (of_optional expense_type) else None)
    else if decide (k = "performedAtFrom") then
      (if truthy (of_optional from_date) then Some (of_optional from_date) else None)
    else if decide (k = "performedAtTo") then
      (if truthy (of_optional to_date) then Some (of_optional to_date) else None)
    else None.
Proof.
  unfold list_expenses_params.
  repeat case_decide; subst;
    destruct (truthy (of_optional status)), (truthy (of_optional expense_type)),
      (truthy (of_optional from_date)), (truthy (of_optional to_date));
    by simplify_map_eq.
Qed.

Lemma filter_lookup_is_Some (a : option string) :
  is_Some (if truthy (of_optional a) then Some (of_optional a) else None)
  ↔ supplied_nonempty a.
Proof.
  rewrite <- truthy_optional.
  destruct (truthy (of_optional a)); split; done.
Qed.

(** C2.  Every request [list_expenses] sends is a GET of [/expenses] whose
    [limit] parameter is 100 when the argument is above 100 and the
    argument itself when it is 100 or less, zero and negative values
    included. *)
Theorem list_expenses_limit_clamped
    (w : World) (status expense_type from_date to_date : option string)
    (limit : Z) (r : Request) :
  r ∈ sent (list_expenses py_repr str_chars w status expense_type from_date to_date limit) →
  method r = GET ∧ url r = PLEO_API_BASE_URL +:+ "/expenses"
  ∧ ∃ p, params r = Some p
      ∧ (limit > 100 → p !! "limit" = Some (PyInt 100))
      ∧ (limit ≤ 100 → p !! "limit" = Some (PyInt limit)).
Proof.
  intros Hr.
  destruct (get_client_cases w) as [[key Hkey]|Hraise].
  - rewrite (list_expenses_sent _ _ _ _ _ _ _ Hkey) in Hr.
    apply list_elem_of_singleton in Hr as ->.
    do 2 (split; [done |]). eexists. split; [done |].
    rewrite list_expenses_params_lookup. simpl.
    split; intros Hlim; do 2 f_equal; lia.
  - pose proof (sent_without_client w
        (ListExpenses status expense_type from_date to_date limit) Hraise) as Hnone.
    simpl in Hnone. rewrite Hnone in Hr. by apply elem_of_nil in Hr.
Qed.

(** C8 (amended).  In every request [list_expenses] sends, [status],
    [type], [performedAtFrom] and [performedAtTo] are present exactly when
    their argument ([status], [expense_type], [from_date], [to_date]) was
    supplied and is not the empty string, and hold that argument; the only
    other key is [limit]. *)
Theorem list_expenses_filters_sent
    (w : World) (status expense_type from_date to_date : option string)
    (limit : Z) (r : Request) :
  r ∈ sent (list_expenses py_repr str_chars w status expense_type from_date to_date limit) →
  ∃ p, params r = Some p
    ∧ (is_Some (p !! "status") ↔ supplied_nonempty status)
    ∧ (is_Some (p !! "type") ↔ supplied_nonempty expense_type)
    ∧ (is_Some (p !! "performedAtFrom") ↔ supplied_nonempty from_date)
    ∧ (is_Some (p !! "performedAtTo") ↔ supplied_nonempty to_date)
    ∧ (∀ v, p !! "status" = Some v → v = of_optional status)
    ∧ (∀ v, p !! "type" = Some v → v = of_optional expense_type)
    ∧ (∀ v, p !! "performedAtFrom" = Some v → v = of_optional from_date)
    ∧ (∀ v, p !! "performedAtTo" = Some v → v = of_optional to_date)
    ∧ dom p ⊆ {[ "limit" ]} ∪ filter_keys.
Proof.
  intros Hr.
  destruct (get_client_cases w) as [[key Hkey]|Hraise].
  - rewrite (list_expenses_sent _ _ _ _ _ _ _ Hkey) in Hr.
    apply list_elem_of_singleton in Hr as ->.
    eexists. split; [done |].
    rewrite !list_expenses_params_lookup. simpl.
    repeat split; try (by apply filter_lookup_is_Some).
    1-4: by intros v; case_match; intros [= <-].
    intros k [v Hk]%elem_of_dom.
    rewrite list_expenses_params_lookup in Hk.
    unfold filter_keys. repeat case_decide; subst; set_solver.
  - pose proof (sent_without_client w
        (ListExpenses status expense_type from_date to_date limit) Hraise) as Hnone.
    simpl in Hnone. rewrite Hnone in Hr. by apply elem_of_nil in Hr.
Qed.

(** ** The payload of [update_expense] *)

Lemma update_expense_data_lookup note account_id tax_code_id k :
  update_expense_data note account_id tax_code_id !! k =
    if decide (k = "note") then note
    else if decide (k = "accountId") then account_id
    else if decide (k = "taxCodeId") then tax_code_id
    else None.
Proof.
  unfold update_expense_data.
  repeat case_decide; subst;
    destruct note, account_id, tax_code_id; by simplify_map_eq.
Qed.

Lemma update_expense_data_empty note account_id tax_code_id :
  update_expense_data note account_id tax_code_id = ∅
  ↔ note = None ∧ account_id = None ∧ tax_code_id = None.
Proof.
  split.
  - intros Hempty.
    pose proof (update_expense_data_lookup note account_id tax_code_id) as Hl.
    rewrite Hempty in Hl.
    pose proof (Hl "note") as H1. pose proof (Hl "accountId") as H2.
    pose proof (Hl "taxCodeId") as H3.
    rewrite lookup_empty in H1, H2, H3. simpl in *. done.
  - by intros (-> & -> & ->).
Qed.

(** C3.  Every request [update_expense] sends is a PUT of
    [/expenses/{expense_id}] whose JSON body holds [note], [accountId] and
    [taxCodeId] exactly for the arguments [note], [account_id] and
    [tax_code_id] that are not [None], each with the value passed (an empty
    string included), and holds no other key. *)
Theorem update_expense_payload
    (w : World) (expense_id : string) (note account_id tax_code_id : option string)
    (r : Request) :
  r ∈ sent (update_expense w expense_id note account_id tax_code_id) →
  method r = PUT ∧ url r = PLEO_API_BASE_URL +:+ "/expenses/" +:+ expense_id
  ∧ ∃ data, json r = Some data
      ∧ data !! "note" = note
      ∧ data !! "accountId" = account_id
      ∧ data !! "taxCodeId" = tax_code_id
      ∧ dom data ⊆ update_keys.
Proof.
  intros Hr.
  destruct (get_client_cases w) as [[key Hkey]|Hraise].
  - rewrite (update_expense_sent _ _ _ _ _ _ Hkey) in Hr.
    case_bool_decide; [by apply elem_of_nil in Hr |].
    apply list_elem_of_singleton in Hr as ->.
    do 2 (split; [done |]). eexists. split; [done |].
    rewrite !update_expense_data_lookup. simpl.
    do 3 (split; [done |]).
    intros k [v Hk]%elem_of_dom.
    rewrite update_expense_data_lookup in Hk.
    unfold update_keys. repeat case_decide; subst; set_solver.
  - rewrite (update_expense_without_client _ _ _ _ _ Hraise) in Hr.
    by apply elem_of_nil in Hr.
Qed.

(** With no field to update nothing is sent, key or no key. *)
Lemma no_fields_sends_nothing w expense_id :
  sent (update_expense w expense_id None None None) = [].
Proof.
  destruct (get_client_cases w) as [[key Hkey]|Hraise].
  - by rewrite (update_expense_sent _ _ _ _ _ _ Hkey).
  - by apply update_expense_without_client.
Qed.

Lemma update_expense_without_fields_requests w expense_id s :
  requests (snd (update_expense w expense_id None None None s)) = requests s.
Proof.
  unfold update_expense.
  rewrite try_except_requests by (apply status_then_catch_all_keeps; intros; keeps).
  destruct (get_client_cases w) as [[key Hkey]|Hraise].
  - by rewrite (get_client_configured _ _ Hkey), bind_ret_l.
  - by rewrite Hraise, bind_raise_l.
Qed.

(** C4 (amended).  A call of [update_expense] that supplies none of
    [note], [account_id], [tax_code_id] sends no request, whatever the
    configuration.  With the API key configured it returns the validation
    message and leaves the state as it was; without a usable key it
    returns the configuration error instead. *)
Theorem update_expense_without_fields
    (w : World) (expense_id : string) (s : Effects) :
  requests (snd (update_expense w expense_id None None None s)) = requests s
  ∧ (∀ key, configured w key →
       update_expense w expense_id None None None s
       = (Returned no_update_fields_message, s))
  ∧ ((¬ ∃ key, configured w key) →
       fst (update_expense w expense_id None None None s)
       = Returned missing_key_message).
Proof.
  split; [apply update_expense_without_fields_requests |]. split.
  - intros key Hkey. unfold update_expense, try_except.
    by rewrite (get_client_configured _ _ Hkey), bind_ret_l.
  - intros Hnone. destruct (get_client_cases w) as [Hsome|Hraise]; [done |].
    unfold update_expense, try_except. by rewrite Hraise, bind_raise_l.
Qed.

(** ** Replies *)

Lemma client_get_refused w key endpoint query r s :
  transport w (get_request key endpoint query) = Returned r →
  is_success r = false →
  client_get w (PleoAPIClient_init key) endpoint query s
  = (Raised (HTTPStatusError (status_error_text r) (status_code r)),
     after_send s (get_request key endpoint query)).
Proof.
  intros Hr Hcode. unfold client_get, bind, http_send, raise_for_status.
  change (transport w _) with (transport w (get_request key endpoint query)).
  by rewrite Hr, Hcode.
Qed.

Lemma client_get_accepted w key endpoint query r s :
  transport w (get_request key endpoint query) = Returned r →
  is_success r = true →
  client_get w (PleoAPIClient_init key) endpoint query s
  = (decoded r, after_send s (get_request key endpoint query)).
Proof.
  intros Hr Hcode. unfold client_get, bind, http_send, raise_for_status.
  change (transport w _) with (transport w (get_request key endpoint query)).
  by rewrite Hr, Hcode.
Qed.

Lemma client_put_refused w key endpoint data r s :
  transport w (put_request key endpoint data) = Returned r →
  is_success r = false →
  client_put w (PleoAPIClient_init key) endpoint data s
  = (Raised (HTTPStatusError (status_error_text r) (status_code r)),
     after_send s (put_request key endpoint data)).
Proof.
  intros Hr Hcode. unfold client_put, bind, http_send, raise_for_status.
  change (transport w _) with (transport w (put_request key endpoint data)).
  by rewrite Hr, Hcode.
Qed.

Lemma not_found_refused r : status_code r = 404 → is_success r = false.
Proof. unfold is_success. by intros ->. Qed.

(** [get_expense] on a 404 reply to its request. *)
Lemma get_expense_on_404 w key r expense_id s :
  configured w key →
  transport w (get_request key ("/expenses/" +:+ expense_id) None) = Returned r →
  status_code r = 404 →
  get_expense py_repr str_chars w expense_id s
  = (Returned (expense_not_found expense_id),
     after_send s (get_request key ("/expenses/" +:+ expense_id) None)).
Proof.
  intros Hkey Hr H404. unfold get_expense, try_except.
  rewrite (get_client_configured _ _ Hkey), bind_ret_l. unfold bind at 1.
  rewrite (client_get_refused _ _ _ _ _ _ Hr (not_found_refused _ H404)).
  simpl. by rewrite H404.
Qed.

Lemma update_expense_on_404 w key r expense_id note account_id tax_code_id s :
  configured w key →
  transport w (put_request key ("/expenses/" +:+ expense_id)
                 (update_expense_data note account_id tax_code_id)) = Returned r →
  status_code r = 404 →
  update_expense_data note account_id tax_code_id ≠ ∅ →
  update_expense w expense_id note account_id tax_code_id s
  = (Returned (expense_not_found expense_id),
     after_send s (put_request key ("/expenses/" +:+ expense_id)
                     (update_expense_data note account_id tax_code_id))).
Proof.
  intros Hkey Hr H404 Hdata. unfold update_expense, try_except.
  rewrite (get_client_configured _ _ Hkey), bind_ret_l.
  rewrite bool_decide_eq_false_2 by done. unfold bind at 1.
  rewrite (client_put_refused _ _ _ _ _ _ Hr (not_found_refused _ H404)).
  simpl. by rewrite H404.
Qed.

Lemma get_expense_receipts_on_404 w key r expense_id s :
  configured w key →
  transport w (get_request key ("/expenses/" +:+ expense_id +:+ "/receipts") None)
  = Returned r →
  status_code r = 404 →
  get_expense_receipts py_repr str_chars w expense_id s
  = (Returned (expense_not_found expense_id),
     after_send s (get_request key ("/expenses/" +:+ expense_id +:+ "/receipts") None)).
Proof.
  intros Hkey Hr H404. unfold get_expense_receipts, try_except.
  rewrite (get_client_configured _ _ Hkey), bind_ret_l. unfold bind at 1.
  rewrite (client_get_refused _ _ _ _ _ _ Hr (not_found_refused _ H404)).
  simpl. by rewrite H404.
Qed.

Lemma get_expense_receipt_on_404 w key r expense_id receipt_id s :
  configured w key →
  transport w (get_request key
                 ("/expenses/" +:+ expense_id +:+ "/receipts/" +:+ receipt_id) None)
  = Returned r →
  status_code r = 404 →
  get_expense_receipt py_repr w expense_id receipt_id s
  = (Returned (receipt_not_found expense_id receipt_id),
     after_send s (get_request key
                     ("/expenses/" +:+ expense_id +:+ "/receipts/" +:+ receipt_id) None)).
Proof.
  intros Hkey Hr H404. unfold get_expense_receipt, try_except.
  rewrite (get_client_configured _ _ Hkey), bind_ret_l. unfold bind at 1.
  rewrite (client_get_refused _ _ _ _ _ _ Hr (not_found_refused _ H404)).
  simpl. by rewrite H404.
Qed.

(** [list_expenses] has a single [except Exception] clause: a refused
    request, 404 or not, comes back as the raw error text. *)
Lemma list_expenses_on_refusal w key r status expense_type from_date to_date limit s :
  configured w key →
  transport w (get_request key "/expenses"
                 (Some (list_expenses_params status expense_type from_date to_date limit)))
  = Returned r →
  is_success r = false →
  fst (list_expenses py_repr str_chars w status expense_type from_date to_date limit s)
  = Returned ("Error: " +:+ status_error_text r).
Proof.
  intros Hkey Hr Hcode. unfold list_expenses, try_except.
  rewrite (get_client_configured _ _ Hkey), bind_ret_l. unfold bind at 1.
  by rewrite (client_get_refused _ _ _ _ _ _ Hr Hcode).
Qed.

(** C5 (amended).  With the key configured and an API that answers 404:
    [get_expense], [update_expense] and [get_expense_receipts] return
    "Error: Expense with ID {expense_id} not found" and
    [get_expense_receipt] returns "Error: Receipt with ID {receipt_id} not
    found for expense {expense_id}", whenever the call reaches the API;
    [list_expenses] has no clause for 404 and returns "Error: " followed by
    the raw text of the HTTP error. *)
Theorem upstream_404_messages (w : World) (key : string) (r : Response) :
  configured w key → answers w r → status_code r = 404 →
  (∀ c msg,
      not_found_message c = Some msg →
      sent (invoke py_repr str_chars w c) ≠ [] →
      result (invoke py_repr str_chars w c) = Returned msg)
  ∧ (∀ status expense_type from_date to_date limit,
      result (list_expenses py_repr str_chars w status expense_type from_date to_date limit)
      = Returned ("Error: " +:+ status_error_text r)).
Proof.
  intros Hkey Hr H404. split.
  - intros c msg Hmsg Hsent. unfold result.
    destruct c; simpl in *; try discriminate; injection Hmsg as <-.
    + by rewrite (get_expense_on_404 _ _ _ _ _ Hkey (Hr _) H404).
    + rewrite (update_expense_sent _ _ _ _ _ _ Hkey) in Hsent.
      case_bool_decide; [done |].
      by rewrite (update_expense_on_404 _ _ _ _ _ _ _ _ Hkey (Hr _) H404).
    + by rewrite (get_expense_receipts_on_404 _ _ _ _ _ Hkey (Hr _) H404).
    + by rewrite (get_expense_receipt_on_404 _ _ _ _ _ _ Hkey (Hr _) H404).
  - intros. apply (list_expenses_on_refusal _ _ _ _ _ _ _ _ _ Hkey (Hr _)).
    by apply not_found_refused.
Qed.

(** C6.  When the key is configured and the API answers the request of
    [get_expense expense_id] with status 404, the handler returns (it does
    not raise) the text "Error: Expense with ID {expense_id} not found",
    which contains the requested [expense_id] as it was passed. *)
Theorem get_expense_not_found
    (w : World) (key : string) (r : Response) (expense_id : string) (s : Effects) :
  configured w key →
  transport w (get_request key ("/expenses/" +:+ expense_id) None) = Returned r →
  status_code r = 404 →
  ∃ text s',
    get_expense py_repr str_chars w expense_id s = (Returned text, s')
    ∧ text = expense_not_found expense_id
    ∧ ∃ before after, text = before +:+ expense_id +:+ after.
Proof.
  intros Hkey Hr H404.
  rewrite (get_expense_on_404 _ _ _ _ _ Hkey Hr H404).
  eexists _, _. split; [done |]. split; [done |].
  by exists "Error: Expense with ID ", " not found".
Qed.

(** C9.  When the key is configured and the API answers the request of
    [list_expenses] with a success status and an object whose [data] is the
    empty list, or which has no [data] at all, the handler returns exactly
    "No expenses found matching the criteria." and so no "Found n
    expense(s):" header, for [n = 0] or any other [n]. *)
Theorem list_expenses_no_results
    (w : World) (key : string) (r : Response) (items : list (string * pyobj))
    (status expense_type from_date to_date : option string) (limit : Z) :
  configured w key →
  transport w (get_request key "/expenses"
                 (Some (list_expenses_params status expense_type from_date to_date limit)))
  = Returned r →
  is_success r = true →
  decoded r = Returned (PyDict items) →
  dict_lookup "data" items = None ∨ dict_lookup "data" items = Some (PyList []) →
  result (list_expenses py_repr str_chars w status expense_type from_date to_date limit)
  = Returned no_expenses_message
  ∧ ∀ n, no_expenses_message ≠ found_header n.
Proof.
  intros Hkey Hr Hcode Hbody Hdata. split; [|done].
  unfold result, list_expenses, try_except.
  rewrite (get_client_configured _ _ Hkey), bind_ret_l. unfold bind at 1.
  rewrite (client_get_accepted _ _ _ _ _ _ Hr Hcode), Hbody.
  unfold bind at 1. simpl. by destruct Hdata as [-> | ->].
Qed.

(** ** Empty objects in an expense *)

Lemma get_expense_details_empty_objects d1 d2 s :
  differ_in_empty_objects d1 d2 →
  get_expense_details py_repr str_chars (PyDict d1) s
  = get_expense_details py_repr str_chars (PyDict d2) s.
Proof.
  intros (Hsame & Hs1 & Hs2 & Hc1 & Hc2).
  unfold get_expense_details, py_get.
  unfold absent_or_empty in *.
  rewrite !(Hsame "id"), !(Hsame "employeeId"), !(Hsame "employeeCode"),
    !(Hsame "departmentId"), !(Hsame "performedAt"), !(Hsame "amountOriginal"),
    !(Hsame "note"), !(Hsame "type"), !(Hsame "status"), !(Hsame "accountId"),
    !(Hsame "taxCodeId"), !(Hsame "receiptIds"), !(Hsame "createdAt"),
    !(Hsame "updatedAt") by done.
  destruct Hs1 as [-> | ->], Hs2 as [-> | ->], Hc1 as [-> | ->], Hc2 as [-> | ->];
    reflexivity.
Qed.

(** Two payloads that differ only in empty objects give the same run. *)
Lemma get_expense_runs_agree
    (w : World) (code : Z) (text : string) (d1 d2 : list (string * pyobj))
    (expense_id : string) (s : Effects) :
  differ_in_empty_objects d1 d2 →
  get_expense py_repr str_chars (answering w (reply code text (PyDict d1))) expense_id s
  = get_expense py_repr str_chars (answering w (reply code text (PyDict d2))) expense_id s.
Proof.
  intros Hd. unfold get_expense. apply try_except_ext.
  change (get_client (answering w _)) with (get_client w).
  destruct (get_client_cases w) as [[key Hkey]|Hraise].
  - rewrite (get_client_configured _ _ Hkey), !bind_ret_l, !bind_run.
    destruct (is_success (reply code text PyNone)) eqn:Hcode.
    + rewrite (client_get_accepted (answering w (reply code text (PyDict d1)))
                 key _ _ _ s eq_refl Hcode).
      rewrite (client_get_accepted (answering w (reply code text (PyDict d2)))
                 key _ _ _ s eq_refl Hcode).
      simpl. by rewrite (get_expense_details_empty_objects _ _ _ Hd).
    + rewrite (client_get_refused (answering w (reply code text (PyDict d1)))
                 key _ _ _ s eq_refl Hcode).
      by rewrite (client_get_refused (answering w (reply code text (PyDict d2)))
                    key _ _ _ s eq_refl Hcode).
  - by rewrite Hraise.
Qed.

Lemma py_get_field d key default :
  py_get (PyDict d) key default = ret (field d key default).
Proof. reflexivity. Qed.

Lemma join_items_run sep i xs acc s :
  join_items sep i xs acc s = (result (join_items sep i xs acc), s).
Proof.
  revert i acc. induction xs as [|x xs IH]; intros i acc; [done |].
  destruct x; try reflexivity. simpl. apply IH.
Qed.

Lemma py_join_run sep o s :
  py_join str_chars sep o s = (result (py_join str_chars sep o), s).
Proof.
  destruct o; try reflexivity; unfold py_join, py_iter, result;
    rewrite !bind_ret_l; apply join_items_run.
Qed.

Ltac read_fields :=
  repeat first [ rewrite py_get_field | rewrite bind_ret_l | progress cbv beta ].

Lemma get_expense_details_text d joined s :
  renderable_expense d = true →
  receipt_ids_text str_chars d = Returned joined →
  get_expense_details py_repr str_chars (PyDict d) s
  = (Returned (expense_details_text py_repr d joined), s).
Proof.
  unfold renderable_expense, receipt_ids_text, object_or_falsy.
  intros Hrend Hjoined.
  apply andb_true_iff in Hrend as [Hrend Hmerchant].
  apply andb_true_iff in Hrend as [Hrend Hcard].
  apply andb_true_iff in Hrend as [Horiginal Hsettled].
  unfold get_expense_details, expense_details_text, settled_amount_line,
    card_transaction_block, merchant_line.
  cbv zeta. read_fields.
  destruct (field d "amountOriginal" (PyDict [])) as [| | | | | |original];
    try discriminate Horiginal.
  cbn [items_of]. read_fields.
  rewrite bind_run.
  destruct (truthy (field d "amountSettled" (PyDict []))); simpl in Hsettled;
    [destruct (field d "amountSettled" (PyDict [])) as [| | | | | |settled];
       try discriminate Hsettled; cbn [items_of] |];
    read_fields; unfold ret at 1; cbv iota beta; read_fields.
  all: rewrite bind_run.
  all: destruct (truthy (field d "receiptIds" (PyList [])));
    [rewrite py_join_run, Hjoined | injection Hjoined as <-; unfold ret at 1];
    cbv iota beta; read_fields.
  all: rewrite bind_run.
  all: destruct (truthy (field d "cardTransaction" (PyDict []))); simpl in Hcard;
    [destruct (field d "cardTransaction" (PyDict [])) as [| | | | | |card];
       try discriminate Hcard; cbn [items_of] in *; read_fields;
       destruct (truthy (field card "merchant" (PyDict []))); simpl in Hmerchant;
       [destruct (field card "merchant" (PyDict [])) as [| | | | | |merchant];
          try discriminate Hmerchant; cbn [items_of] |];
       read_fields |];
    unfold ret at 1; cbv iota beta; read_fields.
  all: unfold ret.
  all: rewrite !append_assoc, ?append_empty_l.
  all: reflexivity.
Qed.

Lemma absent_or_empty_falsy k d :
  absent_or_empty k d → truthy (field d k (PyDict [])) = false.
Proof. unfold field. by intros [-> | ->]. Qed.

(** C10.  [get_expense] tests [amountSettled] and [cardTransaction] by
    truthiness.  Two replies whose expense objects agree on every other
    key and in which each of the two fields is missing or the empty object
    give the same run.  For an expense object all of whose parts can be
    read, the text is the fixed sequence of lines in which the "Settled
    Amount" line stands between "Original Amount" and "Note" exactly when
    [amountSettled] is truthy, and the "Card Transaction" block stands
    between "Receipt IDs" and "Created At" exactly when [cardTransaction]
    is truthy; for a field that is missing or the empty object the line
    and the block are the empty text. *)
Theorem get_expense_empty_object_as_missing :
  (∀ (w : World) (code : Z) (text : string) (d1 d2 : list (string * pyobj))
     (expense_id : string) (s : Effects),
      differ_in_empty_objects d1 d2 →
      get_expense py_repr str_chars (answering w (reply code text (PyDict d1)))
        expense_id s
      = get_expense py_repr str_chars (answering w (reply code text (PyDict d2)))
          expense_id s)
  ∧ (∀ (w : World) (key : string) (r : Response) (d : list (string * pyobj))
       (joined expense_id : string) (s : Effects),
        configured w key →
        transport w (get_request key ("/expenses/" +:+ expense_id) None) = Returned r →
        is_success r = true →
        decoded r = Returned (PyDict d) →
        renderable_expense d = true →
        receipt_ids_text str_chars d = Returned joined →
        get_expense py_repr str_chars w expense_id s
        = (Returned (expense_details_text py_repr d joined),
           after_send s (get_request key ("/expenses/" +:+ expense_id) None)))
  ∧ (∀ d, absent_or_empty "amountSettled" d → settled_amount_line py_repr d = "")
  ∧ (∀ d, absent_or_empty "cardTransaction" d → card_transaction_block py_repr d = "").
Proof.
  split; [intros; by apply get_expense_runs_agree |].
  split; [| split].
  - intros w key r d joined expense_id s Hkey Hr Hcode Hbody Hrend Hjoined.
    unfold get_expense, try_except.
    rewrite (get_client_configured _ _ Hkey), bind_ret_l.
    rewrite bind_run, (client_get_accepted _ _ _ _ _ _ Hr Hcode), Hbody.
    by rewrite (get_expense_details_text _ _ _ Hrend Hjoined).
  - intros d Hd. unfold settled_amount_line. cbv zeta.
    by rewrite (absent_or_empty_falsy _ _ Hd).
  - intros d Hd. unfold card_transaction_block. cbv zeta.
    by rewrite (absent_or_empty_falsy _ _ Hd).
Qed.

End Claims.

(** ** The handlers on sample worlds *)

Example list_expenses_two_blocks :
  result (list_expenses sample_repr ascii_chars
            (secret_world (reply 200 "" (PyDict [("data",
               PyList [PyDict sample_expense; PyDict [("id", PyStr "def-456")]])])))
            (Some "QUEUED") None None None 5)
  = Returned
      (found_header 2
       +:+ "- ID: abc-123" +:+ LF +:+ "  Date: 2024-05-01T10:00:00Z" +:+ LF
       +:+ "  Amount: 120 DKK" +:+ LF +:+ "  Type: CARD" +:+ LF
       +:+ "  Status: QUEUED" +:+ LF +:+ "  Note: No note" +:+ LF +:+ LF
       +:+ "- ID: def-456" +:+ LF +:+ "  Date: N/A" +:+ LF
       +:+ "  Amount: 0 N/A" +:+ LF +:+ "  Type: N/A" +:+ LF
       +:+ "  Status: N/A" +:+ LF +:+ "  Note: No note" +:+ LF +:+ LF).
Proof. vm_compute. reflexivity. Qed.

Example get_expense_without_settled_amount :
  result (get_expense sample_repr ascii_chars
            (secret_world (reply 200 "" (PyDict sample_expense))) "abc-123")
  = Returned
      ("Expense Details:" +:+ LF +:+ LF
       +:+ "ID: abc-123" +:+ LF +:+ "Employee ID: N/A" +:+ LF
       +:+ "Employee Code: N/A" +:+ LF +:+ "Department ID: N/A" +:+ LF
       +:+ "Performed At: 2024-05-01T10:00:00Z" +:+ LF
       +:+ "Original Amount: 120 DKK" +:+ LF
       +:+ "Note: No note" +:+ LF +:+ "Type: CARD" +:+ LF
       +:+ "Status: QUEUED" +:+ LF +:+ "Account ID: N/A" +:+ LF
       +:+ "Tax Code ID: N/A" +:+ LF +:+ "Receipt IDs: r-1, r-2" +:+ LF
       +:+ LF +:+ "Created At: N/A" +:+ LF +:+ "Updated At: N/A" +:+ LF).
Proof. vm_compute. reflexivity. Qed.

Example malformed_payload_is_reported :
  result (list_expenses sample_repr ascii_chars
            (secret_world (reply 200 "" (PyList []))) None None None None 50)
  = Returned "Error: 'list' object has no attribute 'get'".
Proof. vm_compute. reflexivity. Qed.

Example list_expenses_raw_404 :
  result (list_expenses sample_repr ascii_chars (secret_world not_found_reply)
            None None None None 50)
  = Returned ("Error: " +:+ status_error_text not_found_reply).
Proof. vm_compute. reflexivity. Qed.

(** ** Where the wording fails *)

(** C1, as worded, fails: when the task is cancelled while the request is
    awaited, [get_expense] does not return; the cancellation goes through
    its [except Exception] clause to the caller. *)
Lemma cancellation_propagates : ¬ handlers_never_propagate.
Proof.
  intros Hclaim.
  destruct (Hclaim sample_repr ascii_chars cancelled_world (GetExpense "abc-123")
              no_effects) as (text & s' & Hrun).
  vm_compute in Hrun. discriminate Hrun.
Qed.

(** C8, as worded, fails: with [status=""] supplied, the request carries
    no [status] parameter. *)
Lemma empty_status_filter_not_sent : ¬ filters_sent_iff_supplied.
Proof.
  intros Hclaim.
  destruct (Hclaim sample_repr ascii_chars (secret_world not_found_reply)
              (Some "") None None None 50
              (get_request "secret" "/expenses"
                 (Some (list_expenses_params (Some "") None None None 50))))
    as (p & Hp & Hstatus & _).
  - rewrite (list_expenses_sent sample_repr ascii_chars _ "secret"); [|done].
    apply list_elem_of_here.
  - injection Hp as <-.
    destruct (proj2 Hstatus) as [v Hv]; [by eexists |].
    by rewrite list_expenses_params_lookup in Hv.
Qed.

(** C4, as worded, fails: without a key the same call returns the
    configuration error, not the validation message. *)
Lemma no_fields_without_key_is_config_error : ¬ no_fields_always_validation_error.
Proof.
  intros Hclaim.
  destruct (Hclaim keyless_world "abc-123") as [Hresult _].
  vm_compute in Hresult. discriminate Hresult.
Qed.

(** C5, as worded, fails: [list_expenses] answers two 404 replies that
    differ in their error text with two different strings, each the raw
    text behind "Error: ". *)
Lemma list_expenses_404_not_classified : ¬ every_handler_classifies_404.
Proof.
  intros Hclaim.
  destruct (Hclaim sample_repr ascii_chars (ListExpenses None None None None 50))
    as [msg Hmsg].
  pose proof (Hmsg (secret_world not_found_reply) "secret" not_found_reply) as H1.
  pose proof (Hmsg (secret_world (reply 404 "Not Found" PyNone)) "secret"
                (reply 404 "Not Found" PyNone)) as H2.
  assert (Returned (A := string) ("Error: " +:+ status_error_text not_found_reply)
          = Returned "Error: Not Found") as Heq.
  { rewrite <- list_expenses_raw_404.
    transitivity (Returned (A := string) msg).
    - apply H1; [done | done | done |]. vm_compute. discriminate.
    - symmetry. rewrite <- H2; [by vm_compute | done | done | done |].
      vm_compute. discriminate. }
  vm_compute in Heq. discriminate Heq.
Qed.

(** ** The theorems at sample inputs *)

Lemma empty_objects_expense_differs :
  differ_in_empty_objects empty_objects_expense sample_expense.
Proof.
  repeat split; try (by right); try (by left).
  intros k Hs Hc. unfold empty_objects_expense. simpl.
  destruct (String.eqb_spec k "amountSettled"); [done |].
  by destruct (String.eqb_spec k "cardTransaction").
Qed.

Lemma list_expenses_limit_clamped_witness :
  let r := get_request "secret" "/expenses"
             (Some (list_expenses_params (Some "QUEUED") None None None 500)) in
  r ∈ sent (list_expenses sample_repr ascii_chars (secret_world not_found_reply)
              (Some "QUEUED") None None None 500)
  ∧ ∃ p, params r = Some p ∧ p !! "limit" = Some (PyInt 100).
Proof.
  intros r.
  assert (r ∈ sent (list_expenses sample_repr ascii_chars (secret_world not_found_reply)
                      (Some "QUEUED") None None None 500)) as Hr.
  { vm_compute. apply list_elem_of_here. }
  split; [exact Hr |].
  destruct (list_expenses_limit_clamped sample_repr ascii_chars _ _ _ _ _ _ _ Hr)
    as (_ & _ & p & Hp & Habove & _).
  exists p. split; [exact Hp | apply Habove; lia].
Defined.

Lemma list_expenses_filters_sent_witness :
  let r := get_request "secret" "/expenses"
             (Some (list_expenses_params (Some "QUEUED") None (Some "") None 5)) in
  r ∈ sent (list_expenses sample_repr ascii_chars (secret_world not_found_reply)
              (Some "QUEUED") None (Some "") None 5)
  ∧ ∃ p, params r = Some p
      ∧ (is_Some (p !! "status") ↔ supplied_nonempty (Some "QUEUED"))
      ∧ (is_Some (p !! "performedAtFrom") ↔ supplied_nonempty (Some "")).
Proof.
  intros r.
  assert (r ∈ sent (list_expenses sample_repr ascii_chars (secret_world not_found_reply)
                      (Some "QUEUED") None (Some "") None 5)) as Hr.
  { vm_compute. apply list_elem_of_here. }
  split; [exact Hr |].
  destruct (list_expenses_filters_sent sample_repr ascii_chars _ _ _ _ _ _ _ Hr)
    as (p & Hp & Hstatus & _ & Hfrom & _).
  exists p. split; [exact Hp |]. split; [exact Hstatus | exact Hfrom].
Defined.

Lemma update_expense_payload_witness :
  let r := put_request "secret" "/expenses/abc-123"
             (update_expense_data (Some "") (Some "acc-7") None) in
  r ∈ sent (update_expense (secret_world (reply 200 "" (PyDict [])))
              "abc-123" (Some "") (Some "acc-7") None)
  ∧ ∃ data, json r = Some data
      ∧ data !! "note" = Some ""
      ∧ data !! "accountId" = Some "acc-7"
      ∧ data !! "taxCodeId" = None.
Proof.
  intros r.
  assert (r ∈ sent (update_expense (secret_world (reply 200 "" (PyDict [])))
                      "abc-123" (Some "") (Some "acc-7") None)) as Hr.
  { vm_compute. apply list_elem_of_here. }
  split; [exact Hr |].
  destruct (update_expense_payload _ _ _ _ _ _ Hr)
    as (_ & _ & data & Hdata & Hnote & Hacc & Htax & _).
  exists data. repeat split; assumption.
Defined.

Lemma update_expense_without_fields_witness :
  configured (secret_world not_found_reply) "secret"
  ∧ requests (snd (update_expense (secret_world not_found_reply) "abc-123"
                     None None None no_effects)) = requests no_effects
  ∧ update_expense (secret_world not_found_reply) "abc-123" None None None no_effects
    = (Returned no_update_fields_message, no_effects).
Proof.
  assert (configured (secret_world not_found_reply) "secret") as Hkey.
  { split; [reflexivity | discriminate]. }
  destruct (update_expense_without_fields (secret_world not_found_reply)
              "abc-123" no_effects) as (Hnothing & Hvalidation & _).
  split; [exact Hkey |].
  split; [exact Hnothing | exact (Hvalidation "secret" Hkey)].
Defined.

Lemma upstream_404_messages_witness :
  configured (secret_world not_found_reply) "secret"
  ∧ answers (secret_world not_found_reply) not_found_reply
  ∧ status_code not_found_reply = 404
  ∧ result (invoke sample_repr ascii_chars (secret_world not_found_reply)
              (GetExpenseReceipt "abc-123" "r-1"))
    = Returned "Error: Receipt with ID r-1 not found for expense abc-123".
Proof.
  assert (configured (secret_world not_found_reply) "secret") as Hkey.
  { split; [reflexivity | discriminate]. }
  assert (answers (secret_world not_found_reply) not_found_reply) as Hr.
  { intros q. reflexivity. }
  do 3 (split; [done |]).
  apply (proj1 (upstream_404_messages sample_repr ascii_chars _ _ _ Hkey Hr eq_refl)).
  - reflexivity.
  - vm_compute. discriminate.
Defined.

Lemma get_expense_not_found_witness :
  configured (secret_world not_found_reply) "secret"
  ∧ status_code not_found_reply = 404
  ∧ ∃ text s',
      get_expense sample_repr ascii_chars (secret_world not_found_reply) "abc-123"
        no_effects = (Returned text, s')
      ∧ text = expense_not_found "abc-123"
      ∧ ∃ before after, text = before +:+ "abc-123" +:+ after.
Proof.
  assert (configured (secret_world not_found_reply) "secret") as Hkey.
  { split; [reflexivity | discriminate]. }
  do 2 (split; [done |]).
  exact (get_expense_not_found sample_repr ascii_chars _ _ _ "abc-123" no_effects
           Hkey eq_refl eq_refl).
Defined.

Lemma missing_key_reported_witness :
  PLEO_API_KEY keyless_world = None
  ∧ ∃ s',
      invoke sample_repr ascii_chars keyless_world
        (UpdateExpense "abc-123" (Some "lunch") None None) no_effects
      = (Returned missing_key_message, s')
      ∧ requests s' = requests no_effects.
Proof.
  split; [reflexivity |].
  exact (proj2 (missing_key_reported sample_repr ascii_chars keyless_world
                  (UpdateExpense "abc-123" (Some "lunch") None None) no_effects
                  eq_refl)).
Defined.

Lemma list_expenses_no_results_witness :
  configured (secret_world (reply 200 "" (PyDict [("data", PyList [])]))) "secret"
  ∧ result (list_expenses sample_repr ascii_chars
              (secret_world (reply 200 "" (PyDict [("data", PyList [])])))
              (Some "EXPORTED") None None None 50)
    = Returned no_expenses_message.
Proof.
  assert (configured (secret_world (reply 200 "" (PyDict [("data", PyList [])])))
            "secret") as Hkey.
  { split; [reflexivity | discriminate]. }
  split; [exact Hkey |].
  apply (list_expenses_no_results sample_repr ascii_chars _ _ _
           [("data", PyList [])] (Some "EXPORTED") None None None 50 Hkey eq_refl
           eq_refl eq_refl).
  right. reflexivity.
Defined.

Lemma get_expense_empty_object_as_missing_witness :
  differ_in_empty_objects empty_objects_expense sample_expense
  ∧ configured (secret_world (reply 200 "" (PyDict empty_objects_expense))) "secret"
  ∧ renderable_expense empty_objects_expense = true
  ∧ receipt_ids_text ascii_chars empty_objects_expense = Returned "r-1, r-2"
  ∧ get_expense sample_repr ascii_chars
      (answering (secret_world not_found_reply)
         (reply 200 "" (PyDict empty_objects_expense))) "abc-123" no_effects
    = get_expense sample_repr ascii_chars
        (answering (secret_world not_found_reply)
           (reply 200 "" (PyDict sample_expense))) "abc-123" no_effects
  ∧ get_expense sample_repr ascii_chars
      (secret_world (reply 200 "" (PyDict empty_objects_expense))) "abc-123"
      no_effects
    = (Returned (expense_details_text sample_repr empty_objects_expense "r-1, r-2"),
       after_send no_effects (get_request "secret" "/expenses/abc-123" None))
  ∧ settled_amount_line sample_repr empty_objects_expense = ""
  ∧ card_transaction_block sample_repr empty_objects_expense = "".
Proof.
  assert (configured (secret_world (reply 200 "" (PyDict empty_objects_expense)))
            "secret") as Hkey.
  { split; [reflexivity | discriminate]. }
  destruct (get_expense_empty_object_as_missing sample_repr ascii_chars)
    as (Hsame & Htext & Hsettled & Hcard).
  split; [exact empty_objects_expense_differs |].
  split; [exact Hkey |].
  split; [reflexivity |].
  split; [reflexivity |].
  split.
  { exact (Hsame (secret_world not_found_reply) 200 "" _ _ "abc-123" no_effects
             empty_objects_expense_differs). }
  split.
  { exact (Htext _ "secret" (reply 200 "" (PyDict empty_objects_expense))
             empty_objects_expense "r-1, r-2" "abc-123" no_effects
             Hkey eq_refl eq_refl eq_refl eq_refl eq_refl). }
  split.
  - apply Hsettled. right. reflexivity.
  - apply Hcard. right. reflexivity.
Defined.

(** * Further properties of the handlers and the client *)

Section Coverage.

Variable py_repr : pyobj → string.
Variable str_chars : string → list string.

(** ** Requests *)

(** A call sends nothing, or it has a client and sends its one request. *)
Lemma sent_cases w c :
  sent (invoke py_repr str_chars w c) = []
  ∨ ∃ key, configured w key ∧ sent (invoke py_repr str_chars w c) = [call_request key c].
Proof.
  destruct (get_client_cases w) as [[key Hkey]|Hraise].
  - destruct c; simpl.
    + right. exists key. split; [done |]. by apply list_expenses_sent.
    + right. exists key. split; [done |]. by apply get_expense_sent.
    + rewrite (update_expense_sent _ _ _ _ _ _ Hkey).
      case_bool_decide; [by left |]. right. by exists key.
    + right. exists key. split; [done |]. by apply get_expense_receipts_sent.
    + right. exists key. split; [done |]. by apply get_expense_receipt_sent.
  - left. by apply sent_without_client.
Qed.

(** X1.  Whatever the world does, a tool call puts at most one request on
    the wire: no handler retries or makes a second call. *)
Theorem at_most_one_request (w : World) (c : Call) :
  (length (sent (invoke py_repr str_chars w c)) ≤ 1)%nat.
Proof.
  destruct (sent_cases w c) as [-> | (key & _ & ->)]; simpl; lia.
Qed.

(** X2.  What a handler hands to httpx: in every call of
    [httpx.AsyncClient.get] or [.put] a tool makes, the [url] argument is
    the text of the base URL followed by the call's endpoint, with the
    identifiers as they were passed, the [headers] argument is the
    client's dictionary, [Authorization: Bearer {key}] for the key
    configured in the environment with the two JSON entries, and the
    [timeout] argument is 30.  (What httpx adds to the headers or does to
    the path before sending is not part of [Request].) *)
Theorem httpx_arguments_carry_key (w : World) (c : Call) (r : Request) :
  r ∈ sent (invoke py_repr str_chars w c) →
  ∃ key, configured w key
    ∧ url r = url (call_request key c)
    ∧ headers r = [("Authorization", "Bearer " +:+ key);
                   ("Accept", "application/json");
                   ("Content-Type", "application/json")]
    ∧ timeout r = 30.
Proof.
  intros Hr.
  destruct (sent_cases w c) as [Hnone | (key & Hkey & Hone)].
  - rewrite Hnone in Hr. by apply elem_of_nil in Hr.
  - rewrite Hone in Hr. apply list_elem_of_singleton in Hr as ->.
    exists key. split; [done |]. split; [done |]. by destruct c.
Qed.

(** X3.  Only [update_expense] writes: a request is a PUT exactly when the
    call is [update_expense], and then it has a JSON body and no query
    parameters; the four reading tools send a GET without a body. *)
Theorem only_update_expense_puts (w : World) (c : Call) (r : Request) :
  r ∈ sent (invoke py_repr str_chars w c) →
  (method r = PUT ↔ is_update c = true)
  ∧ (method r = PUT → params r = None ∧ is_Some (json r))
  ∧ (method r = GET → json r = None).
Proof.
  intros Hr.
  destruct (sent_cases w c) as [Hnone | (key & Hkey & Hone)].
  - rewrite Hnone in Hr. by apply elem_of_nil in Hr.
  - rewrite Hone in Hr. apply list_elem_of_singleton in Hr as ->.
    destruct c; simpl; repeat split; try done; by eexists.
Qed.

(** ** The key *)

(** X4.  An empty [PLEO_API_KEY] counts as a missing one: every tool call
    returns the configuration error and no request is sent. *)
Theorem empty_key_reported (w : World) (c : Call) (s : Effects) :
  PLEO_API_KEY w = Some "" →
  ∃ s', invoke py_repr str_chars w c s = (Returned missing_key_message, s')
        ∧ requests s' = requests s.
Proof.
  intros Hempty. apply invoke_without_client.
  unfold get_client. by rewrite Hempty.
Qed.

(** X5.  The warning logged at import and the configuration error of the
    handlers go together: importing the module in a world logs the warning
    exactly when every tool call in that world returns the configuration
    error. *)
Theorem warning_iff_calls_fail (w : World) :
  log (snd (module_init w no_effects))
  = [(WARNING, "PLEO_API_KEY environment variable not set")]
  ↔ ∀ c, result (invoke py_repr str_chars w c) = Returned missing_key_message.
Proof.
  unfold module_init.
  destruct (PLEO_API_KEY w) as [[|a key]|] eqn:Hkey; simpl.
  - split; [|done]. intros _ c. unfold result.
    destruct (invoke_without_client py_repr str_chars w c no_effects)
      as (s' & -> & _); [|done].
    unfold get_client. by rewrite Hkey.
  - split; [done |]. intros Hall.
    specialize (Hall (UpdateExpense "" None None None)).
    unfold result in Hall. simpl in Hall.
    unfold update_expense, try_except in Hall.
    rewrite (get_client_configured w (String a key)), bind_ret_l in Hall;
      [discriminate Hall | by split].
  - split; [|done]. intros _ c. unfold result.
    destruct (invoke_without_client py_repr str_chars w c no_effects)
      as (s' & -> & _); [|done].
    by apply get_client_absent.
Qed.

(** ** Failures *)

Lemma client_get_unreachable w key endpoint query e s :
  transport w (get_request key endpoint query) = Raised e →
  client_get w (PleoAPIClient_init key) endpoint query s
  = (Raised e, after_send s (get_request key endpoint query)).
Proof.
  intros Hr. unfold client_get, bind, http_send.
  change (transport w _) with (transport w (get_request key endpoint query)).
  by rewrite Hr.
Qed.

Lemma client_put_unreachable w key endpoint data e s :
  transport w (put_request key endpoint data) = Raised e →
  client_put w (PleoAPIClient_init key) endpoint data s
  = (Raised e, after_send s (put_request key endpoint data)).
Proof.
  intros Hr. unfold client_put, bind, http_send.
  change (transport w _) with (transport w (put_request key endpoint data)).
  by rewrite Hr.
Qed.

Lemma client_put_accepted w key endpoint data r s :
  transport w (put_request key endpoint data) = Returned r →
  is_success r = true →
  client_put w (PleoAPIClient_init key) endpoint data s
  = (decoded r, after_send s (put_request key endpoint data)).
Proof.
  intros Hr Hcode. unfold client_put, bind, http_send, raise_for_status.
  change (transport w _) with (transport w (put_request key endpoint data)).
  by rewrite Hr, Hcode.
Qed.

(** A call reaches the API only with a payload, for [update_expense]. *)
Lemma update_reaches_api w key expense_id note account_id tax_code_id :
  configured w key →
  sent (update_expense w expense_id note account_id tax_code_id) ≠ [] →
  bool_decide (update_expense_data note account_id tax_code_id = ∅) = false.
Proof.
  intros Hkey Hsent. rewrite (update_expense_sent _ _ _ _ _ _ Hkey) in Hsent.
  by case_bool_decide.
Qed.

(** Starts a handler's run for a configured key, up to its request. *)
Ltac start_run Hkey :=
  unfold list_expenses, get_expense, update_expense, get_expense_receipts,
    get_expense_receipt, try_except;
  rewrite (get_client_configured _ _ Hkey), bind_ret_l.

(** X6.  With the key configured, a reply with a status outside 200..299
    other than 404 makes every handler whose call reaches the API return
    "Error: " followed by the raw text of the HTTP error, and log that text
    once at level ERROR. *)
Theorem other_http_errors_raw
    (w : World) (key : string) (r : Response) (c : Call) (s : Effects) :
  configured w key → answers w r →
  is_success r = false → status_code r ≠ 404 →
  sent (invoke py_repr str_chars w c) ≠ [] →
  ∃ s', invoke py_repr str_chars w c s
        = (Returned ("Error: " +:+ status_error_text r), s')
    ∧ ∃ context, log s' = (log s ++ [(ERROR, context +:+ status_error_text r)])%list.
Proof.
  intros Hkey Hr Hcode H404 Hsent.
  apply Z.eqb_neq in H404.
  destruct c; simpl in *.
  - start_run Hkey.
    rewrite bind_run, (client_get_refused _ _ _ _ _ _ (Hr _) Hcode). simpl.
    eexists. split; [done |]. by exists "Error listing expenses: ".
  - start_run Hkey.
    rewrite bind_run, (client_get_refused _ _ _ _ _ _ (Hr _) Hcode). simpl.
    rewrite H404. eexists. split; [done |]. by exists "HTTP error getting expense: ".
  - pose proof (update_reaches_api _ _ _ _ _ _ Hkey Hsent) as Hdata.
    start_run Hkey. rewrite Hdata.
    rewrite bind_run, (client_put_refused _ _ _ _ _ _ (Hr _) Hcode). simpl.
    rewrite H404. eexists. split; [done |]. by exists "HTTP error updating expense: ".
  - start_run Hkey.
    rewrite bind_run, (client_get_refused _ _ _ _ _ _ (Hr _) Hcode). simpl.
    rewrite H404. eexists. split; [done |]. by exists "HTTP error getting receipts: ".
  - start_run Hkey.
    rewrite bind_run, (client_get_refused _ _ _ _ _ _ (Hr _) Hcode). simpl.
    rewrite H404. eexists. split; [done |]. by exists "HTTP error getting receipt: ".
Qed.

(** X7.  With the key configured, when the transport raises an exception
    other than an HTTP status error (no connection, a timeout), every
    handler whose call reaches the API returns "Error: " followed by the
    text of that exception. *)
Theorem transport_failure_reported
    (w : World) (key cls text : string) (c : Call) (s : Effects) :
  configured w key →
  (∀ q, transport w q = Raised (Exception cls text)) →
  sent (invoke py_repr str_chars w c) ≠ [] →
  ∃ s', invoke py_repr str_chars w c s = (Returned ("Error: " +:+ text), s')
        ∧ requests s' = (requests s ++ [call_request key c])%list.
Proof.
  intros Hkey Hr Hsent.
  destruct c; simpl in *.
  - start_run Hkey.
    rewrite bind_run, (client_get_unreachable _ _ _ _ _ _ (Hr _)). simpl.
    by eexists.
  - start_run Hkey.
    rewrite bind_run, (client_get_unreachable _ _ _ _ _ _ (Hr _)). simpl.
    by eexists.
  - pose proof (update_reaches_api _ _ _ _ _ _ Hkey Hsent) as Hdata.
    start_run Hkey. rewrite Hdata.
    rewrite bind_run, (client_put_unreachable _ _ _ _ _ _ (Hr _)). simpl.
    by eexists.
  - start_run Hkey.
    rewrite bind_run, (client_get_unreachable _ _ _ _ _ _ (Hr _)). simpl.
    by eexists.
  - start_run Hkey.
    rewrite bind_run, (client_get_unreachable _ _ _ _ _ _ (Hr _)). simpl.
    by eexists.
Qed.

(** ** The log *)

Lemma silent_ret {A} (a : A) : keeps_log (ret a).
Proof. by intros s. Qed.

Lemma silent_raise {A} (e : Exn) : keeps_log (raise (A := A) e).
Proof. by intros s. Qed.

Lemma silent_of_outcome {A} (o : Outcome A) : keeps_log (of_outcome o).
Proof. by intros s. Qed.

Lemma silent_http_send w q : keeps_log (http_send w q).
Proof. by intros s. Qed.

Lemma silent_bind {A B} (m : M A) (k : A → M B) :
  keeps_log m → (∀ a, keeps_log (k a)) → keeps_log (bind m k).
Proof.
  intros Hm Hk s. unfold bind. specialize (Hm s).
  destruct (m s) as [[a|e] s']; simpl in *; [by rewrite Hk | done].
Qed.

Lemma silent_py_get o key default : keeps_log (py_get o key default).
Proof. by destruct o. Qed.

Lemma silent_py_len o : keeps_log (py_len str_chars o).
Proof. by destruct o. Qed.

Lemma silent_py_iter o : keeps_log (py_iter str_chars o).
Proof. by destruct o. Qed.

Lemma silent_for_each {A} (step : A → pyobj → M A) xs acc :
  (∀ a x, keeps_log (step a x)) → keeps_log (for_each xs step acc).
Proof.
  intros Hstep. revert acc.
  induction xs as [|x xs IH]; intros acc; simpl.
  - apply silent_ret.
  - apply silent_bind; [apply Hstep | apply IH].
Qed.

Lemma silent_join_items sep i xs acc : keeps_log (join_items sep i xs acc).
Proof.
  revert i acc. induction xs as [|x xs IH]; intros i acc; simpl.
  - apply silent_ret.
  - destruct x; first [apply silent_raise | apply IH].
Qed.

Lemma silent_py_join sep o : keeps_log (py_join str_chars sep o).
Proof.
  destruct o; simpl; try apply silent_raise;
    (apply silent_bind; [apply silent_ret | intros; apply silent_join_items]).
Qed.

Lemma silent_raise_for_status r : keeps_log (raise_for_status r).
Proof. unfold raise_for_status. by case_match. Qed.

Lemma silent_get_client w : keeps_log (get_client w).
Proof. unfold get_client. by repeat case_match. Qed.

#[local] Hint Resolve silent_ret silent_raise silent_of_outcome silent_http_send
  silent_py_get silent_py_len silent_py_iter silent_join_items silent_py_join
  silent_raise_for_status silent_get_client : runs.

(** Splits a goal [keeps_log m] along the binds and branches of [m]. *)
Ltac silent :=
  repeat first
    [ progress auto with runs
    | apply silent_bind; [ | intros ? ]
    | apply silent_for_each; intros ? ?
    | match goal with
      | |- keeps_log (if ?b then _ else _) => destruct b
      end ].

Lemma silent_client_get w self endpoint query :
  keeps_log (client_get w self endpoint query).
Proof. unfold client_get, response_json. silent. Qed.

Lemma silent_client_put w self endpoint data :
  keeps_log (client_put w self endpoint data).
Proof. unfold client_put, response_json. silent. Qed.

Lemma silent_list_expenses_block summary expense :
  keeps_log (list_expenses_block py_repr summary expense).
Proof. unfold list_expenses_block. silent. Qed.

Lemma silent_get_expense_details expense :
  keeps_log (get_expense_details py_repr str_chars expense).
Proof. unfold get_expense_details. silent. Qed.

Lemma silent_get_expense_receipts_block text receipt :
  keeps_log (get_expense_receipts_block py_repr text receipt).
Proof. unfold get_expense_receipts_block. silent. Qed.

Lemma silent_get_expense_receipt_details receipt :
  keeps_log (get_expense_receipt_details py_repr receipt).
Proof. unfold get_expense_receipt_details. silent. Qed.

#[local] Hint Resolve silent_client_get silent_client_put
  silent_list_expenses_block silent_get_expense_details
  silent_get_expense_receipts_block silent_get_expense_receipt_details : runs.

Lemma try_except_reports (body : M string) cs s :
  keeps_log body →
  (∀ e s1, is_Exception e = true →
     ∃ h, select_clause e cs = Some h ∧ reports s1 (h s1)) →
  reports s (try_except body cs s) ∨ interrupted s (try_except body cs s).
Proof.
  intros Hbody Hcs. unfold try_except. specialize (Hbody s).
  destruct (body s) as [[text|e] s1]; simpl in *.
  - left. exists text. split; [done |]. by left.
  - destruct (is_Exception e) eqn:He.
    + left. destruct (Hcs e s1 He) as (h & -> & Hh).
      unfold reports in *. by rewrite <- Hbody.
    + right. destruct e as [| |cls text]; try discriminate He.
      rewrite select_clause_base. by exists cls, text.
Qed.

Lemma catch_all_reports context e s1 :
  is_Exception e = true →
  ∃ h, select_clause e
         [except_Exception (fun e =>
            logger ERROR (context +:+ exn_str e) ;; ret ("Error: " +:+ exn_str e))]
       = Some h
    ∧ reports s1 (h s1).
Proof.
  intros He. eexists. split; [by destruct e |].
  eexists. split; [done |]. right. by exists context, (exn_str e).
Qed.

Lemma status_then_catch_all_reports not_found context1 context2 e s1 :
  is_Exception e = true →
  ∃ h, select_clause e
         [except_HTTPStatusError (fun text code =>
            if code =? 404 then ret not_found
            else logger ERROR (context1 +:+ text) ;; ret ("Error: " +:+ text));
          except_Exception (fun e =>
            logger ERROR (context2 +:+ exn_str e) ;; ret ("Error: " +:+ exn_str e))]
       = Some h
    ∧ reports s1 (h s1).
Proof.
  intros He. destruct e as [text code|cls text|cls text]; try discriminate He;
    simpl; eexists; (split; [done |]).
  - destruct (code =? 404); eexists; (split; [done |]); [by left |].
    right. by exists context1, text.
  - eexists. split; [done |]. right. by exists context2, text.
Qed.

(** X8.  A tool call writes to the log at most once, and only when it
    returns: the record is then at level ERROR, ends with the text of the
    error, and the caller gets "Error: " followed by that same text.  A
    call that ends in a raised exception lets through something that is no
    instance of [Exception] and has logged nothing. *)
Theorem logged_errors_are_returned (w : World) (c : Call) (s : Effects) :
  (∃ text s',
      invoke py_repr str_chars w c s = (Returned text, s')
      ∧ (log s' = log s
         ∨ ∃ context e,
             log s' = (log s ++ [(ERROR, context +:+ e)])%list
             ∧ text = "Error: " +:+ e))
  ∨ (∃ cls text s',
        invoke py_repr str_chars w c s = (Raised (BaseException cls text), s')
        ∧ log s' = log s).
Proof.
  assert (reports s (invoke py_repr str_chars w c s)
          ∨ interrupted s (invoke py_repr str_chars w c s)) as Hrun.
  { destruct c; simpl;
      unfold list_expenses, get_expense, update_expense, get_expense_receipts,
        get_expense_receipt.
    - apply try_except_reports; [silent | intros; by apply catch_all_reports].
    - apply try_except_reports;
        [silent | intros; by apply status_then_catch_all_reports].
    - apply try_except_reports;
        [silent | intros; by apply status_then_catch_all_reports].
    - apply try_except_reports;
        [silent | intros; by apply status_then_catch_all_reports].
    - apply try_except_reports;
        [silent | intros; by apply status_then_catch_all_reports]. }
  destruct (invoke py_repr str_chars w c s) as [o s'].
  unfold reports, interrupted in Hrun. simpl in Hrun.
  destruct Hrun as [(text & -> & Hlog) | (cls & text & -> & Hlog)].
  - left. by exists text, s'.
  - right. by exists cls, text, s'.
Qed.

(** X9.  A 404 answered by the handlers that have a clause for it
    ([get_expense], [update_expense], [get_expense_receipts],
    [get_expense_receipt]) is not logged: the log is the same after the
    call as before. *)
Theorem not_found_is_not_logged
    (w : World) (key : string) (r : Response) (c : Call) (s : Effects) :
  configured w key → answers w r → status_code r = 404 →
  is_Some (not_found_message c) →
  log (snd (invoke py_repr str_chars w c s)) = log s.
Proof.
  intros Hkey Hr H404 [msg Hmsg].
  destruct c; simpl in *; try discriminate.
  - by rewrite (get_expense_on_404 _ _ _ _ _ _ _ Hkey (Hr _) H404).
  - destruct (bool_decide (update_expense_data note account_id tax_code_id = ∅))
      eqn:Hdata.
    + start_run Hkey. by rewrite Hdata.
    + apply bool_decide_eq_false in Hdata.
      by rewrite (update_expense_on_404 _ _ _ _ _ _ _ _ Hkey (Hr _) H404 Hdata).
  - by rewrite (get_expense_receipts_on_404 _ _ _ _ _ _ _ Hkey (Hr _) H404).
  - by rewrite (get_expense_receipt_on_404 _ _ _ _ _ _ _ Hkey (Hr _) H404).
Qed.

(** ** Replies that are accepted *)

Lemma some_field_supplied note account_id tax_code_id :
  note ≠ None ∨ account_id ≠ None ∨ tax_code_id ≠ None →
  bool_decide (update_expense_data note account_id tax_code_id = ∅) = false.
Proof.
  intros Hsome. apply bool_decide_eq_false.
  rewrite update_expense_data_empty. intros (-> & -> & ->). by destruct Hsome as [|[|]].
Qed.

(** X10.  With the key configured and at least one field supplied, a
    success reply to the PUT of [update_expense] whose body decodes gives
    "Successfully updated expense {expense_id}" whatever the body holds:
    the reply is not inspected. *)
Theorem update_expense_success
    (w : World) (key : string) (r : Response) (body : pyobj)
    (expense_id : string) (note account_id tax_code_id : option string) (s : Effects) :
  configured w key →
  note ≠ None ∨ account_id ≠ None ∨ tax_code_id ≠ None →
  transport w (put_request key ("/expenses/" +:+ expense_id)
                 (update_expense_data note account_id tax_code_id)) = Returned r →
  is_success r = true →
  decoded r = Returned body →
  update_expense w expense_id note account_id tax_code_id s
  = (Returned ("Successfully updated expense " +:+ expense_id),
     after_send s (put_request key ("/expenses/" +:+ expense_id)
                     (update_expense_data note account_id tax_code_id))).
Proof.
  intros Hkey Hsome Hr Hcode Hbody. start_run Hkey.
  rewrite (some_field_supplied _ _ _ Hsome).
  by rewrite bind_run, (client_put_accepted _ _ _ _ _ _ Hr Hcode), Hbody.
Qed.

(** X11.  [update_expense] decodes the reply before it reports success:
    when the PUT is accepted with a success status but the body does not
    decode as JSON (an empty body, say), the handler returns "Error: "
    followed by the decoder's text, although the update has been sent. *)
Theorem update_expense_undecodable_reply
    (w : World) (key : string) (r : Response) (cls text : string)
    (expense_id : string) (note account_id tax_code_id : option string) (s : Effects) :
  configured w key →
  note ≠ None ∨ account_id ≠ None ∨ tax_code_id ≠ None →
  transport w (put_request key ("/expenses/" +:+ expense_id)
                 (update_expense_data note account_id tax_code_id)) = Returned r →
  is_success r = true →
  decoded r = Raised (Exception cls text) →
  ∃ s', update_expense w expense_id note account_id tax_code_id s
        = (Returned ("Error: " +:+ text), s')
    ∧ requests s'
      = (requests s ++ [put_request key ("/expenses/" +:+ expense_id)
                          (update_expense_data note account_id tax_code_id)])%list.
Proof.
  intros Hkey Hsome Hr Hcode Hbody. start_run Hkey.
  rewrite (some_field_supplied _ _ _ Hsome).
  rewrite bind_run, (client_put_accepted _ _ _ _ _ _ Hr Hcode), Hbody. simpl.
  by eexists.
Qed.

(** X12.  With the key configured, a success reply to
    [get_expense_receipts] whose body is falsy (the empty list, but also
    [null], an empty object, an empty string, zero) gives "No receipts
    found for expense {expense_id}". *)
Theorem get_expense_receipts_none
    (w : World) (key : string) (r : Response) (body : pyobj)
    (expense_id : string) (s : Effects) :
  configured w key →
  transport w (get_request key ("/expenses/" +:+ expense_id +:+ "/receipts") None)
  = Returned r →
  is_success r = true →
  decoded r = Returned body →
  truthy body = false →
  fst (get_expense_receipts py_repr str_chars w expense_id s)
  = Returned ("No receipts found for expense " +:+ expense_id).
Proof.
  intros Hkey Hr Hcode Hbody Hfalsy. start_run Hkey.
  rewrite bind_run, (client_get_accepted _ _ _ _ _ _ Hr Hcode), Hbody.
  by rewrite Hfalsy.
Qed.

(** X13.  With the key configured, a success reply whose body is not a
    JSON object makes [list_expenses], [get_expense] and
    [get_expense_receipt] return "Error: '{type}' object has no attribute
    'get'" for the type of the body. *)
Theorem non_object_reply_reported
    (w : World) (key : string) (r : Response) (body : pyobj) (c : Call) (s : Effects) :
  configured w key → answers w r →
  is_success r = true →
  decoded r = Returned body →
  is_dict body = false →
  renders_object c = true →
  fst (invoke py_repr str_chars w c s)
  = Returned ("Error: " +:+ no_get_attribute body).
Proof.
  intros Hkey Hr Hcode Hbody Hdict Hc.
  destruct c; simpl in *; try discriminate.
  - start_run Hkey.
    rewrite bind_run, (client_get_accepted _ _ _ _ _ _ (Hr _) Hcode), Hbody.
    by destruct body.
  - start_run Hkey.
    rewrite bind_run, (client_get_accepted _ _ _ _ _ _ (Hr _) Hcode), Hbody.
    by destruct body.
  - start_run Hkey.
    rewrite bind_run, (client_get_accepted _ _ _ _ _ _ (Hr _) Hcode), Hbody.
    by destruct body.
Qed.

(** ** Listings *)

Lemma list_expenses_block_run summary e s :
  well_formed_expense e = true →
  list_expenses_block py_repr summary e s
  = (Returned (summary +:+ expense_block py_repr e), s).
Proof.
  intros Hwf. destruct e as [| | | | |?|d]; try discriminate Hwf.
  unfold expense_block, result, list_expenses_block, bind, py_get, ret.
  simpl in *.
  destruct (dict_lookup "amountOriginal" d) as [[]|]; try discriminate Hwf;
    reflexivity.
Qed.

Lemma list_expenses_block_fails summary e s :
  well_formed_expense e = false →
  list_expenses_block py_repr summary e s
  = (Raised (Exception "AttributeError" (no_get_attribute (offending e))), s).
Proof.
  intros Hwf.
  unfold list_expenses_block, bind, py_get, ret, no_get_attribute.
  destruct e as [| | | | |?|d]; try reflexivity. simpl in *.
  destruct (dict_lookup "amountOriginal" d) as [[]|]; try discriminate Hwf;
    reflexivity.
Qed.

Lemma get_expense_receipts_block_run text e s :
  is_dict e = true →
  get_expense_receipts_block py_repr text e s
  = (Returned (text +:+ receipt_block py_repr e), s).
Proof.
  intros Hdict. destruct e; try discriminate Hdict. reflexivity.
Qed.

(** A loop whose steps append a block each appends the blocks in order. *)
Lemma for_each_blocks (step : string → pyobj → M string) (block : pyobj → string)
    (good : pyobj → bool) xs acc s :
  (∀ text x s, good x = true → step text x s = (Returned (text +:+ block x), s)) →
  Forall (fun x => good x = true) xs →
  for_each xs step acc s = (Returned (acc +:+ blocks block xs), s).
Proof.
  intros Hstep Hxs. revert acc.
  induction Hxs as [|x xs Hx _ IH]; intros acc; simpl.
  - by rewrite append_empty_r.
  - rewrite bind_run, (Hstep _ _ _ Hx), IH. by rewrite append_assoc.
Qed.

(** The loop stops at the first item whose step raises. *)
Lemma for_each_stops (step : string → pyobj → M string) (block : pyobj → string)
    (good : pyobj → bool) before x after e acc s :
  (∀ text x s, good x = true → step text x s = (Returned (text +:+ block x), s)) →
  Forall (fun x => good x = true) before →
  (∀ text s, step text x s = (Raised e, s)) →
  for_each (before ++ x :: after) step acc s = (Raised e, s).
Proof.
  intros Hstep Hbefore Hx. revert acc.
  induction Hbefore as [|y ys Hy _ IH]; intros acc; simpl.
  - by rewrite bind_run, Hx.
  - by rewrite bind_run, (Hstep _ _ _ Hy), IH.
Qed.

(** X14.  With the key configured, a success reply to [list_expenses] whose
    [data] is a non-empty list of well-formed expenses gives the header
    "Found n expense(s):" with [n] the length of the list, followed by one
    block per expense in the order of the reply. *)
Theorem list_expenses_listing
    (w : World) (key : string) (r : Response) (items : list (string * pyobj))
    (x : pyobj) (xs : list pyobj)
    (status expense_type from_date to_date : option string) (limit : Z) (s : Effects) :
  configured w key →
  transport w (get_request key "/expenses"
                 (Some (list_expenses_params status expense_type from_date to_date limit)))
  = Returned r →
  is_success r = true →
  decoded r = Returned (PyDict items) →
  dict_lookup "data" items = Some (PyList (x :: xs)) →
  Forall (fun e => well_formed_expense e = true) (x :: xs) →
  fst (list_expenses py_repr str_chars w status expense_type from_date to_date limit s)
  = Returned (found_header (Z.of_nat (length (x :: xs)))
              +:+ blocks (expense_block py_repr) (x :: xs)).
Proof.
  intros Hkey Hr Hcode Hbody Hdata Hwf. start_run Hkey.
  rewrite bind_run, (client_get_accepted _ _ _ _ _ _ Hr Hcode), Hbody.
  rewrite bind_run. unfold py_get, ret. rewrite Hdata.
  cbn [truthy negb py_len py_iter]. rewrite bind_run. unfold ret.
  rewrite bind_run. unfold ret.
  by rewrite (for_each_blocks _ (expense_block py_repr) well_formed_expense
                _ _ _ (list_expenses_block_run) Hwf).
Qed.

(** X15.  [list_expenses] gives no partial listing: when an element of
    [data] is not an object, or has an [amountOriginal] that is not an
    object ([null], say), and the elements before it are well formed, the
    whole result is "Error: '{type}' object has no attribute 'get'" for the
    type of the offending value. *)
Theorem list_expenses_malformed_element
    (w : World) (key : string) (r : Response) (items : list (string * pyobj))
    (before after : list pyobj) (x : pyobj)
    (status expense_type from_date to_date : option string) (limit : Z) (s : Effects) :
  configured w key →
  transport w (get_request key "/expenses"
                 (Some (list_expenses_params status expense_type from_date to_date limit)))
  = Returned r →
  is_success r = true →
  decoded r = Returned (PyDict items) →
  dict_lookup "data" items = Some (PyList (before ++ x :: after)) →
  Forall (fun e => well_formed_expense e = true) before →
  well_formed_expense x = false →
  fst (list_expenses py_repr str_chars w status expense_type from_date to_date limit s)
  = Returned ("Error: " +:+ no_get_attribute (offending x)).
Proof.
  intros Hkey Hr Hcode Hbody Hdata Hbefore Hx. start_run Hkey.
  rewrite bind_run, (client_get_accepted _ _ _ _ _ _ Hr Hcode), Hbody.
  rewrite bind_run. unfold py_get, ret. rewrite Hdata.
  assert (truthy (PyList (before ++ x :: after)) = true) as -> by by destruct before.
  cbn [negb py_len py_iter]. rewrite bind_run. unfold ret.
  rewrite bind_run. unfold ret.
  by rewrite (for_each_stops _ (expense_block py_repr) well_formed_expense
                _ _ _ _ _ _ (list_expenses_block_run) Hbefore
                (fun text s => list_expenses_block_fails text x s Hx)).
Qed.

(** X16.  With the key configured, a success reply to
    [get_expense_receipts] that is a non-empty list of objects gives the
    header "Receipts for expense {expense_id}:" followed by one block per
    receipt in the order of the reply. *)
Theorem get_expense_receipts_listing
    (w : World) (key : string) (r : Response) (x : pyobj) (xs : list pyobj)
    (expense_id : string) (s : Effects) :
  configured w key →
  transport w (get_request key ("/expenses/" +:+ expense_id +:+ "/receipts") None)
  = Returned r →
  is_success r = true →
  decoded r = Returned (PyList (x :: xs)) →
  Forall (fun e => is_dict e = true) (x :: xs) →
  fst (get_expense_receipts py_repr str_chars w expense_id s)
  = Returned (receipts_header expense_id +:+ blocks (receipt_block py_repr) (x :: xs)).
Proof.
  intros Hkey Hr Hcode Hbody Hdicts. start_run Hkey.
  rewrite bind_run, (client_get_accepted _ _ _ _ _ _ Hr Hcode), Hbody.
  cbn [truthy negb py_iter]. rewrite bind_run. unfold ret.
  by rewrite (for_each_blocks _ (receipt_block py_repr) is_dict
                _ _ _ (get_expense_receipts_block_run) Hdicts).
Qed.

(** X17.  In [get_expense] the default for [amountOriginal] only covers a
    missing key: when the expense holds [amountOriginal] with a value that
    is not an object ([null], a number, a string), the handler returns
    "Error: '{type}' object has no attribute 'get'" for that value. *)
Theorem get_expense_amount_not_object
    (w : World) (key : string) (r : Response) (d : list (string * pyobj))
    (v : pyobj) (expense_id : string) (s : Effects) :
  configured w key →
  transport w (get_request key ("/expenses/" +:+ expense_id) None) = Returned r →
  is_success r = true →
  decoded r = Returned (PyDict d) →
  dict_lookup "amountOriginal" d = Some v →
  is_dict v = false →
  fst (get_expense py_repr str_chars w expense_id s)
  = Returned ("Error: " +:+ no_get_attribute v).
Proof.
  intros Hkey Hr Hcode Hbody Hamount Hv. start_run Hkey.
  rewrite bind_run, (client_get_accepted _ _ _ _ _ _ Hr Hcode), Hbody.
  unfold get_expense_details, bind, py_get, ret. rewrite Hamount.
  by destruct v.
Qed.

(** ** Paths *)

(** X18.  Identifiers go into the path as they are, without escaping: the
    request of [get_expense] for the id [{id}/receipts] is the request of
    [get_expense_receipts] for [{id}], and for [{id}/receipts/{rid}] it is
    the request of [get_expense_receipt] for [{id}] and [{rid}]. *)
Theorem identifiers_are_not_escaped (w : World) (expense_id receipt_id : string) :
  sent (get_expense py_repr str_chars w (expense_id +:+ "/receipts"))
  = sent (get_expense_receipts py_repr str_chars w expense_id)
  ∧ sent (get_expense py_repr str_chars w
            (expense_id +:+ "/receipts/" +:+ receipt_id))
    = sent (get_expense_receipt py_repr w expense_id receipt_id).
Proof.
  destruct (get_client_cases w) as [[key Hkey]|Hraise].
  - by rewrite !(get_expense_sent _ _ _ _ _ Hkey),
      (get_expense_receipts_sent _ _ _ _ _ Hkey),
      (get_expense_receipt_sent _ _ _ _ _ Hkey).
  - pose proof (fun c => sent_without_client py_repr str_chars w c Hraise) as Hnone.
    pose proof (Hnone (GetExpense (expense_id +:+ "/receipts"))) as H1.
    pose proof (Hnone (GetExpense (expense_id +:+ "/receipts/" +:+ receipt_id))) as H2.
    pose proof (Hnone (GetExpenseReceipts expense_id)) as H3.
    pose proof (Hnone (GetExpenseReceipt expense_id receipt_id)) as H4.
    simpl in *. by rewrite H1, H2, H3, H4.
Qed.

End Coverage.

(** ** Downloads *)

(** X19.  [download_file] sends one GET to the URL exactly as given, with
    no headers of the client (so without the bearer token), a timeout of
    60 and nothing logged; when the request is answered it returns the
    reply's content for a status in 200..299 and raises the HTTP status
    error otherwise. *)
Theorem download_file_unauthenticated
    (content : Response → string) (w : World) (self : PleoAPIClient)
    (link : string) (s : Effects) :
  let q := {| method := GET; url := link; headers := []; params := None;
              json := None; timeout := 60 |} in
  snd (download_file content w self link s) = after_send s q
  ∧ ∀ r, transport w q = Returned r →
      fst (download_file content w self link s)
      = if is_success r then Returned (content r)
        else Raised (HTTPStatusError (status_error_text r) (status_code r)).
Proof.
  intros q. unfold download_file, bind, http_send, raise_for_status. fold q.
  split.
  - destruct (transport w q) as [r|e]; [|done]. by destruct (is_success r).
  - intros r ->. by destruct (is_success r).
Qed.

(** * The test script's reading of a listing *)

(** ** Occurrences *)

Lemma prefix_empty s : String.prefix "" s = true.
Proof. by destruct s. Qed.

Lemma prefix_cons a sep x s :
  String.prefix (String a sep) (String x s)
  = if Ascii.eqb a x then String.prefix sep s else false.
Proof.
  simpl. destruct (ascii_dec a x) as [->|Hne].
  - by rewrite Ascii.eqb_refl.
  - by apply Ascii.eqb_neq in Hne as ->.
Qed.

Lemma find_first_cons sep c s :
  find_first sep (String c s)
  = if String.prefix sep (String c s)
    then Some ("", skip (String.length sep) (String c s))
    else match find_first sep s with
         | Some (before, after) => Some (String c before, after)
         | None => None
         end.
Proof. reflexivity. Qed.

(** Occurrences that cannot start in [u] are found behind it. *)
Lemma find_first_app sep u t :
  no_start sep u t = true →
  find_first sep (u +:+ t)
  = match find_first sep t with
    | Some (before, after) => Some (u +:+ before, after)
    | None => None
    end.
Proof.
  induction u as [|c u IH]; intros Hu.
  - change ("" +:+ t) with t. by destruct (find_first sep t) as [[? ?]|].
  - cbn [no_start] in Hu. apply andb_true_iff in Hu as [Hhere Hrest].
    apply negb_true_iff in Hhere.
    rewrite append_cons in *. rewrite find_first_cons, Hhere, (IH Hrest).
    by destruct (find_first sep t) as [[? ?]|].
Qed.

Lemma lacks_no_start c sep u t :
  lacks c u = true → no_start (String c sep) u t = true.
Proof.
  induction u as [|x u IH]; [done |]. cbn [lacks no_start]. intros Hu.
  apply andb_true_iff in Hu as [Hx Hu]. apply negb_true_iff in Hx.
  rewrite (IH Hu), andb_true_r.
  change (String x u +:+ t) with (String x (u +:+ t)).
  by rewrite prefix_cons, Hx.
Qed.

Lemma lacks_app c a b : lacks c (a +:+ b) = lacks c a && lacks c b.
Proof.
  induction a as [|x a IH]; [done |].
  rewrite append_cons. cbn [lacks]. by rewrite IH, andb_assoc.
Qed.

(** A character that [sep] lacks cuts every occurrence of [sep]. *)
Lemma prefix_cut sep u c t :
  lacks c sep = true →
  String.prefix sep (u +:+ String c t) = true → String.prefix sep u = true.
Proof.
  revert u. induction sep as [|a sep IH]; intros u Hsep Hpre.
  - apply prefix_empty.
  - cbn [lacks] in Hsep. apply andb_true_iff in Hsep as [Ha Hsep].
    apply negb_true_iff in Ha. destruct u as [|x u].
    + change ("" +:+ String c t) with (String c t) in Hpre.
      rewrite prefix_cons in Hpre. rewrite Ascii.eqb_sym, Ha in Hpre. done.
    + rewrite append_cons in Hpre. rewrite prefix_cons in *.
      destruct (Ascii.eqb a x); [by apply IH | done].
Qed.

Lemma absent_no_start sep u c t :
  lacks c sep = true → py_contains sep u = false →
  no_start sep u (String c t) = true.
Proof.
  intros Hsep. induction u as [|x u IH]; [done |].
  unfold py_contains. rewrite find_first_cons.
  destruct (String.prefix sep (String x u)) eqn:Hhere; [done |].
  intros Habsent. cbn [no_start]. rewrite IH.
  - rewrite andb_true_r. apply negb_true_iff.
    destruct (String.prefix sep (String x u +:+ String c t)) eqn:Hpre; [|done].
    by rewrite (prefix_cut _ _ _ _ Hsep Hpre) in Hhere.
  - unfold py_contains. by destruct (find_first sep u) as [[? ?]|].
Qed.

(** ** Lengths, and the fuel of [py_split] *)

Lemma length_append (a b : string) :
  String.length (a +:+ b) = (String.length a + String.length b)%nat.
Proof.
  induction a as [|x a IH]; [done |].
  rewrite append_cons. cbn [String.length]. by rewrite IH.
Qed.

Lemma prefix_skip_length sep s :
  String.prefix sep s = true →
  String.length s = (String.length sep + String.length (skip (String.length sep) s))%nat.
Proof.
  revert s. induction sep as [|a sep IH]; intros s Hpre; [done |].
  destruct s as [|x s]; [done |]. rewrite prefix_cons in Hpre.
  destruct (Ascii.eqb a x); [|done]. cbn [String.length skip].
  by rewrite (IH s Hpre) at 1.
Qed.

Lemma find_first_length sep s before after :
  find_first sep s = Some (before, after) →
  String.length s
  = (String.length before + String.length sep + String.length after)%nat.
Proof.
  revert before. induction s as [|c s IH]; intros before.
  - cbn [find_first]. destruct (String.prefix sep "") eqn:Hpre; [|done].
    intros [= <- <-]. by rewrite (prefix_skip_length _ _ Hpre) at 1.
  - rewrite find_first_cons.
    destruct (String.prefix sep (String c s)) eqn:Hpre.
    + intros [= <- <-]. by rewrite (prefix_skip_length _ _ Hpre) at 1.
    + destruct (find_first sep s) as [[b a]|]; [|done].
      intros [= <- <-]. cbn [String.length]. by rewrite (IH b eq_refl).
Qed.

Lemma find_first_empty a sep : find_first (String a sep) "" = None.
Proof. reflexivity. Qed.

Lemma py_split_go_head fuel a sep s :
  (String.length s ≤ fuel)%nat →
  head (py_split_go fuel (String a sep) s) = Some (first_piece (String a sep) s).
Proof.
  unfold first_piece. destruct fuel as [|fuel]; intros Hfuel; simpl py_split_go.
  - destruct s; [by rewrite find_first_empty | simpl in Hfuel; lia].
  - by destruct (find_first (String a sep) s) as [[? ?]|].
Qed.

Lemma py_split_first a sep s :
  py_split (String a sep) s !! 0%nat = Some (first_piece (String a sep) s).
Proof.
  rewrite <- head_lookup. by apply py_split_go_head.
Qed.

(** The second piece is the first piece of what follows the first
    occurrence; without an occurrence there is none. *)
Lemma py_split_second a sep s :
  py_split (String a sep) s !! 1%nat
  = match find_first (String a sep) s with
    | Some (_, after) => Some (first_piece (String a sep) after)
    | None => None
    end.
Proof.
  unfold py_split.
  destruct (String.length s) as [|fuel] eqn:Hlen; simpl py_split_go.
  - destruct s; [by rewrite find_first_empty | discriminate Hlen].
  - destruct (find_first (String a sep) s) as [[before after]|] eqn:Hfind; [|done].
    change ((before :: ?l) !! 1%nat) with (l !! 0%nat).
    rewrite <- head_lookup. apply py_split_go_head.
    apply find_first_length in Hfind. cbn [String.length] in Hfind. lia.
Qed.

(** The fuel is enough: more of it gives the same pieces. *)
Lemma py_split_go_enough fuel a sep s :
  (String.length s ≤ fuel)%nat →
  py_split_go fuel (String a sep) s = py_split (String a sep) s.
Proof.
  unfold py_split. remember (String.length s) as n eqn:Hn.
  revert s fuel Hn. induction (lt_wf n) as [n _ IH]; intros s fuel -> Hfuel.
  destruct s as [|c s].
  - by destruct fuel.
  - destruct fuel as [|fuel]; [simpl in Hfuel; lia |].
    cbn [String.length py_split_go].
    destruct (find_first (String a sep) (String c s)) as [[before after]|] eqn:Hfind;
      [|done].
    apply find_first_length in Hfind. cbn [String.length] in *.
    assert (String.length after < S (String.length s))%nat as Hless by lia.
    f_equal.
    rewrite (IH _ Hless after fuel eq_refl) by lia.
    by rewrite (IH _ Hless after (String.length s) eq_refl) by lia.
Qed.

(** ** Decimal numerals *)

Lemma pretty_N_go_lacks_I x s :
  lacks "I" s = true → lacks "I" (pretty_N_go x s) = true.
Proof.
  revert s. induction (N.lt_wf_0 x) as [x _ IH]; intros s Hs.
  assert (x = 0 ∨ 0 < x)%N as [->|Hx] by lia.
  - by rewrite pretty_N_go_0.
  - rewrite pretty_N_go_step by done. apply IH; [by apply N.div_lt |].
    cbn [lacks]. rewrite Hs, andb_true_r.
    unfold pretty_N_char. by repeat case_match.
Qed.

Lemma pretty_Z_lacks_I (n : Z) : lacks "I" (pretty n) = true.
Proof.
  assert (∀ p, lacks "I" (pretty (N.pos p)) = true) as Hpos.
  { intros p. unfold pretty, pretty_N. case_decide; [done |].
    by apply pretty_N_go_lacks_I. }
  destruct n as [|p|p]; [done | apply Hpos |].
  change (pretty (Z.neg p)) with ("-" +:+ pretty (N.pos p)).
  by rewrite lacks_app, Hpos.
Qed.

(** ** The first id of a listing *)

Lemma find_first_unfold sep s :
  find_first sep s
  = if String.prefix sep s then Some ("", skip (String.length sep) s)
    else match s with
         | "" => None
         | String c rest =>
             match find_first sep rest with
             | Some (before, after) => Some (String c before, after)
             | None => None
             end
         end.
Proof. by destruct s. Qed.

Lemma prefix_here sep t : String.prefix sep (sep +:+ t) = true.
Proof.
  induction sep as [|a sep IH]; [apply prefix_empty |].
  by rewrite append_cons, prefix_cons, Ascii.eqb_refl.
Qed.

Lemma skip_here sep t : skip (String.length sep) (sep +:+ t) = t.
Proof. induction sep as [|a sep IH]; [done |]. by rewrite append_cons. Qed.

Lemma find_first_here sep t : find_first sep (sep +:+ t) = Some ("", t).
Proof. by rewrite find_first_unfold, prefix_here, skip_here. Qed.

(** The piece after the first "ID: " starts with the id and its line
    feed, when "ID: " does not occur in the id. *)
Lemma first_piece_keeps_line i rest :
  py_contains "ID: " i = false →
  ∃ rest', first_piece "ID: " (i +:+ String "010" rest) = i +:+ String "010" rest'.
Proof.
  intros Hi. unfold first_piece.
  rewrite (find_first_app _ _ _ (absent_no_start "ID: " i "010" rest eq_refl Hi)).
  rewrite (find_first_cons "ID: " "010" rest), prefix_cons.
  change (Ascii.eqb "I" "010") with false. cbv iota.
  destruct (find_first "ID: " rest) as [[before after]|]; by eexists.
Qed.

Lemma first_line i rest :
  lacks "010" i = true → first_piece LF (i +:+ String "010" rest) = i.
Proof.
  intros Hi. unfold first_piece, LF.
  rewrite (find_first_app _ _ _ (lacks_no_start "010" "" i _ Hi)).
  change (String "010" rest) with (String "010" "" +:+ rest).
  by rewrite find_first_here, append_empty_r.
Qed.

(** The script reads back the text behind the first "ID: ", up to the end
    of its line. *)
Lemma first_expense_id_found before i rest :
  lacks "I" before = true →
  lacks "010" i = true →
  py_contains "ID: " i = false →
  first_expense_id (before +:+ "ID: " +:+ i +:+ String "010" rest) = Some i.
Proof.
  intros Hbefore Hline Hi. unfold first_expense_id.
  assert (py_contains "ID:" (before +:+ "ID: " +:+ i +:+ String "010" rest) = true)
    as ->.
  { unfold py_contains.
    rewrite (find_first_app _ _ _ (lacks_no_start "I" "D:" before _ Hbefore)).
    change ("ID: " +:+ ?t) with ("ID:" +:+ " " +:+ t).
    by rewrite find_first_here. }
  rewrite py_split_second.
  rewrite (find_first_app _ _ _ (lacks_no_start "I" "D: " before _ Hbefore)).
  rewrite find_first_here.
  destruct (first_piece_keeps_line i rest Hi) as [rest' ->].
  unfold LF. by rewrite py_split_first, (first_line _ _ Hline).
Qed.

Lemma expense_block_shape py_repr d :
  well_formed_expense (PyDict d) = true →
  ∃ rest,
    expense_block py_repr (PyDict d)
    = "- " +:+ "ID: " +:+ shown_id py_repr d +:+ String "010" rest.
Proof.
  intros Hwf.
  unfold expense_block, result, list_expenses_block, bind, py_get, ret, shown_id.
  simpl in *.
  destruct (dict_lookup "amountOriginal" d) as [[]|]; try discriminate Hwf;
    by eexists.
Qed.

(** X20.  The test script and the handler agree on the format of a
    listing: when [list_expenses] lists well-formed expenses, the id the
    script reads from the text ([split("ID: ")[1].split("\n")[0]]) is the
    id shown for the first expense of the reply, as long as that id holds
    no line feed and no "ID: ". *)
Theorem listed_id_is_read_back
    (py_repr : pyobj → string) (str_chars : string → list string)
    (w : World) (key : string) (r : Response) (items d : list (string * pyobj))
    (xs : list pyobj)
    (status expense_type from_date to_date : option string) (limit : Z) (s : Effects) :
  configured w key →
  transport w (get_request key "/expenses"
                 (Some (list_expenses_params status expense_type from_date to_date limit)))
  = Returned r →
  is_success r = true →
  decoded r = Returned (PyDict items) →
  dict_lookup "data" items = Some (PyList (PyDict d :: xs)) →
  Forall (fun e => well_formed_expense e = true) (PyDict d :: xs) →
  lacks "010" (shown_id py_repr d) = true →
  py_contains "ID: " (shown_id py_repr d) = false →
  ∃ text,
    fst (list_expenses py_repr str_chars w status expense_type from_date to_date limit s)
    = Returned text
    ∧ first_expense_id text = Some (shown_id py_repr d).
Proof.
  intros Hkey Hr Hcode Hbody Hdata Hwf Hline Hid.
  exists (found_header (Z.of_nat (length (PyDict d :: xs)))
          +:+ blocks (expense_block py_repr) (PyDict d :: xs)).
  split.
  { unfold list_expenses, try_except.
    rewrite (get_client_configured _ _ Hkey), bind_ret_l.
    rewrite bind_run, (client_get_accepted _ _ _ _ _ _ Hr Hcode), Hbody.
    rewrite bind_run. unfold py_get, ret. rewrite Hdata.
    cbn [truthy negb py_len py_iter]. rewrite bind_run. unfold ret.
    rewrite bind_run. unfold ret.
    by rewrite (for_each_blocks _ (expense_block py_repr) well_formed_expense
                  _ _ _ (list_expenses_block_run py_repr) Hwf). }
  destruct (expense_block_shape py_repr d (Forall_inv Hwf)) as [rest Hblock].
  cbn [blocks foldr]. rewrite Hblock, !append_assoc, (append_cons "010" rest).
  rewrite <- (append_assoc (found_header _) "- ").
  apply first_expense_id_found; [|done..].
  unfold found_header. rewrite !lacks_app, pretty_Z_lacks_I. reflexivity.
Qed.

(** * Arguments that make no difference *)

(** X21.  Asking [list_expenses] for more than 100 results is the same
    call as asking for 100: same request, same text, same log. *)
Theorem limit_above_100_is_100
    (py_repr : pyobj → string) (str_chars : string → list string) (w : World)
    (status expense_type from_date to_date : option string) (limit : Z) (s : Effects) :
  100 ≤ limit →
  list_expenses py_repr str_chars w status expense_type from_date to_date limit s
  = list_expenses py_repr str_chars w status expense_type from_date to_date 100 s.
Proof.
  intros Hlimit. unfold list_expenses, list_expenses_params.
  by replace (Z.min limit 100) with (Z.min 100 100) by lia.
Qed.

(** For [list_expenses] a filter passed as the empty string is the
    same as a filter left out: the call behaves as the one with [None] in
    its place, for each of the four filters. *)
Theorem empty_filter_is_no_filter
    (py_repr : pyobj → string) (str_chars : string → list string) (w : World)
    (status expense_type from_date to_date : option string) (limit : Z) (s : Effects) :
  list_expenses py_repr str_chars w (Some "") expense_type from_date to_date limit s
  = list_expenses py_repr str_chars w None expense_type from_date to_date limit s
  ∧ list_expenses py_repr str_chars w status (Some "") from_date to_date limit s
    = list_expenses py_repr str_chars w status None from_date to_date limit s
  ∧ list_expenses py_repr str_chars w status expense_type (Some "") to_date limit s
    = list_expenses py_repr str_chars w status expense_type None to_date limit s
  ∧ list_expenses py_repr str_chars w status expense_type from_date (Some "") limit s
    = list_expenses py_repr str_chars w status expense_type from_date None limit s.
Proof. repeat split; reflexivity. Qed.

(** X22.  [get_expense_receipt] renders every object: with the key
    configured and a success reply that decodes to a JSON object, the
    handler returns exactly the six lines under "Receipt Details:" (id,
    name, MIME type, size in KB, download URL, the 15 hours note), each
    field shown as it is in the object, or by its default ("N/A", and 0
    for the size) when the object lacks it; only the request is added to
    the state, nothing is logged. *)
Theorem get_expense_receipt_renders_objects
    (py_repr : pyobj → string) (w : World) (key : string) (r : Response)
    (d : list (string * pyobj)) (expense_id receipt_id : string) (s : Effects) :
  configured w key →
  transport w (get_request key
                 ("/expenses/" +:+ expense_id +:+ "/receipts/" +:+ receipt_id) None)
  = Returned r →
  is_success r = true →
  decoded r = Returned (PyDict d) →
  get_expense_receipt py_repr w expense_id receipt_id s
  = (Returned (receipt_details_text py_repr d),
     after_send s
       (get_request key
          ("/expenses/" +:+ expense_id +:+ "/receipts/" +:+ receipt_id) None)).
Proof.
  intros Hkey Hr Hcode Hbody.
  unfold get_expense_receipt, try_except.
  rewrite (get_client_configured _ _ Hkey), bind_ret_l.
  rewrite bind_run, (client_get_accepted _ _ _ _ _ _ Hr Hcode), Hbody.
  unfold get_expense_receipt_details, receipt_details_text, field, bind, py_get, ret.
  by rewrite !append_assoc.
Qed.

(** * The further properties at sample inputs *)

Lemma httpx_arguments_carry_key_witness :
  let r := call_request "secret" (GetExpenseReceipt "abc-123" "r-1") in
  r ∈ sent (invoke sample_repr ascii_chars (secret_world not_found_reply)
              (GetExpenseReceipt "abc-123" "r-1"))
  ∧ ∃ key, configured (secret_world not_found_reply) key
      ∧ headers r = [("Authorization", "Bearer " +:+ key);
                     ("Accept", "application/json");
                     ("Content-Type", "application/json")].
Proof.
  intros r.
  assert (r ∈ sent (invoke sample_repr ascii_chars (secret_world not_found_reply)
                      (GetExpenseReceipt "abc-123" "r-1"))) as Hr.
  { vm_compute. apply list_elem_of_here. }
  split; [exact Hr |].
  destruct (httpx_arguments_carry_key sample_repr ascii_chars _ _ _ Hr)
    as (key & Hkey & _ & Hheaders & _).
  exists key. split; [exact Hkey | exact Hheaders].
Defined.

Lemma only_update_expense_puts_witness :
  let r := call_request "secret" (UpdateExpense "abc-123" (Some "lunch") None None) in
  r ∈ sent (invoke sample_repr ascii_chars (secret_world not_found_reply)
              (UpdateExpense "abc-123" (Some "lunch") None None))
  ∧ (method r = PUT → params r = None ∧ is_Some (json r)).
Proof.
  intros r.
  assert (r ∈ sent (invoke sample_repr ascii_chars (secret_world not_found_reply)
                      (UpdateExpense "abc-123" (Some "lunch") None None))) as Hr.
  { vm_compute. apply list_elem_of_here. }
  split; [exact Hr |].
  exact (proj1 (proj2 (only_update_expense_puts sample_repr ascii_chars _ _ _ Hr))).
Defined.

Lemma empty_key_reported_witness :
  PLEO_API_KEY (sample_world (Some "") not_found_reply) = Some ""
  ∧ ∃ s',
      invoke sample_repr ascii_chars (sample_world (Some "") not_found_reply)
        (GetExpense "abc-123") no_effects
      = (Returned missing_key_message, s')
      ∧ requests s' = requests no_effects.
Proof.
  split; [reflexivity |].
  exact (empty_key_reported sample_repr ascii_chars
           (sample_world (Some "") not_found_reply) (GetExpense "abc-123")
           no_effects eq_refl).
Defined.

Lemma other_http_errors_raw_witness :
  configured (secret_world server_error_reply) "secret"
  ∧ is_success server_error_reply = false
  ∧ ∃ s',
      invoke sample_repr ascii_chars (secret_world server_error_reply)
        (GetExpense "abc-123") no_effects
      = (Returned ("Error: " +:+ status_error_text server_error_reply), s')
      ∧ ∃ context,
          log s'
          = (log no_effects
             ++ [(ERROR, context +:+ status_error_text server_error_reply)])%list.
Proof.
  assert (configured (secret_world server_error_reply) "secret") as Hkey.
  { split; [reflexivity | discriminate]. }
  do 2 (split; [done |]).
  apply (other_http_errors_raw sample_repr ascii_chars _ _ _ (GetExpense "abc-123")
           no_effects Hkey).
  - intros q. reflexivity.
  - reflexivity.
  - discriminate.
  - vm_compute. discriminate.
Defined.

Lemma transport_failure_reported_witness :
  let w := unreachable_world (Some "secret")
             (Exception "ConnectError" "All connection attempts failed") in
  configured w "secret"
  ∧ ∃ s',
      invoke sample_repr ascii_chars w (ListExpenses None None None None 50) no_effects
      = (Returned "Error: All connection attempts failed", s')
      ∧ requests s'
        = (requests no_effects
           ++ [call_request "secret" (ListExpenses None None None None 50)])%list.
Proof.
  intros w.
  assert (configured w "secret") as Hkey.
  { split; [reflexivity | discriminate]. }
  split; [exact Hkey |].
  apply (transport_failure_reported sample_repr ascii_chars w "secret" "ConnectError"
           "All connection attempts failed" (ListExpenses None None None None 50)
           no_effects Hkey).
  - intros q. reflexivity.
  - vm_compute. discriminate.
Defined.

Lemma not_found_is_not_logged_witness :
  configured (secret_world not_found_reply) "secret"
  ∧ status_code not_found_reply = 404
  ∧ log (snd (invoke sample_repr ascii_chars (secret_world not_found_reply)
                (GetExpenseReceipts "abc-123") no_effects))
    = log no_effects.
Proof.
  assert (configured (secret_world not_found_reply) "secret") as Hkey.
  { split; [reflexivity | discriminate]. }
  do 2 (split; [done |]).
  apply (not_found_is_not_logged sample_repr ascii_chars _ _ not_found_reply
           (GetExpenseReceipts "abc-123") no_effects Hkey).
  - intros q. reflexivity.
  - reflexivity.
  - eexists. reflexivity.
Defined.

Lemma update_expense_success_witness :
  configured (secret_world (reply 200 "" PyNone)) "secret"
  ∧ update_expense (secret_world (reply 200 "" PyNone)) "abc-123"
      (Some "lunch") None None no_effects
    = (Returned "Successfully updated expense abc-123",
       after_send no_effects
         (put_request "secret" "/expenses/abc-123"
            (update_expense_data (Some "lunch") None None))).
Proof.
  assert (configured (secret_world (reply 200 "" PyNone)) "secret") as Hkey.
  { split; [reflexivity | discriminate]. }
  split; [exact Hkey |].
  apply (update_expense_success _ "secret" (reply 200 "" PyNone) PyNone "abc-123"
           (Some "lunch") None None no_effects Hkey).
  - left. discriminate.
  - reflexivity.
  - reflexivity.
  - reflexivity.
Defined.

Lemma update_expense_undecodable_reply_witness :
  configured (secret_world undecodable_reply) "secret"
  ∧ is_success undecodable_reply = true
  ∧ ∃ s',
      update_expense (secret_world undecodable_reply) "abc-123"
        None (Some "acc-7") None no_effects
      = (Returned "Error: Expecting value: line 1 column 1 (char 0)", s')
      ∧ requests s'
        = (requests no_effects
           ++ [put_request "secret" "/expenses/abc-123"
                 (update_expense_data None (Some "acc-7") None)])%list.
Proof.
  assert (configured (secret_world undecodable_reply) "secret") as Hkey.
  { split; [reflexivity | discriminate]. }
  do 2 (split; [done |]).
  apply (update_expense_undecodable_reply _ "secret" undecodable_reply
           "JSONDecodeError" "Expecting value: line 1 column 1 (char 0)" "abc-123"
           None (Some "acc-7") None no_effects Hkey).
  - right. left. discriminate.
  - reflexivity.
  - reflexivity.
  - reflexivity.
Defined.

Lemma get_expense_receipts_none_witness :
  configured (secret_world (reply 200 "" (PyList []))) "secret"
  ∧ truthy (PyList []) = false
  ∧ fst (get_expense_receipts sample_repr ascii_chars
           (secret_world (reply 200 "" (PyList []))) "abc-123" no_effects)
    = Returned "No receipts found for expense abc-123".
Proof.
  assert (configured (secret_world (reply 200 "" (PyList []))) "secret") as Hkey.
  { split; [reflexivity | discriminate]. }
  do 2 (split; [done |]).
  exact (get_expense_receipts_none sample_repr ascii_chars _ "secret"
           (reply 200 "" (PyList [])) (PyList []) "abc-123" no_effects
           Hkey eq_refl eq_refl eq_refl eq_refl).
Defined.

Lemma non_object_reply_reported_witness :
  configured (secret_world (reply 200 "" (PyList []))) "secret"
  ∧ is_dict (PyList []) = false
  ∧ fst (invoke sample_repr ascii_chars (secret_world (reply 200 "" (PyList [])))
           (GetExpense "abc-123") no_effects)
    = Returned "Error: 'list' object has no attribute 'get'".
Proof.
  assert (configured (secret_world (reply 200 "" (PyList []))) "secret") as Hkey.
  { split; [reflexivity | discriminate]. }
  do 2 (split; [done |]).
  apply (non_object_reply_reported sample_repr ascii_chars _ "secret"
           (reply 200 "" (PyList [])) (PyList []) (GetExpense "abc-123") no_effects
           Hkey).
  - intros q. reflexivity.
  - reflexivity.
  - reflexivity.
  - reflexivity.
  - reflexivity.
Defined.

Lemma list_expenses_listing_witness :
  let xs := [PyDict sample_expense; PyDict second_expense] in
  configured (secret_world (listing_reply xs)) "secret"
  ∧ Forall (fun e => well_formed_expense e = true) xs
  ∧ fst (list_expenses sample_repr ascii_chars (secret_world (listing_reply xs))
           (Some "QUEUED") None None None 5 no_effects)
    = Returned (found_header 2 +:+ blocks (expense_block sample_repr) xs).
Proof.
  intros xs.
  assert (configured (secret_world (listing_reply xs)) "secret") as Hkey.
  { split; [reflexivity | discriminate]. }
  assert (Forall (fun e => well_formed_expense e = true) xs) as Hwf.
  { repeat constructor. }
  do 2 (split; [done |]).
  exact (list_expenses_listing sample_repr ascii_chars _ "secret" (listing_reply xs)
           [("data", PyList xs)] (PyDict sample_expense) [PyDict second_expense]
           (Some "QUEUED") None None None 5 no_effects
           Hkey eq_refl eq_refl eq_refl eq_refl Hwf).
Defined.

Lemma list_expenses_malformed_element_witness :
  let xs := ([PyDict sample_expense] ++ PyDict null_amount_expense
             :: [PyDict second_expense])%list in
  configured (secret_world (listing_reply xs)) "secret"
  ∧ well_formed_expense (PyDict null_amount_expense) = false
  ∧ fst (list_expenses sample_repr ascii_chars (secret_world (listing_reply xs))
           None None None None 50 no_effects)
    = Returned "Error: 'NoneType' object has no attribute 'get'".
Proof.
  intros xs.
  assert (configured (secret_world (listing_reply xs)) "secret") as Hkey.
  { split; [reflexivity | discriminate]. }
  do 2 (split; [done |]).
  apply (list_expenses_malformed_element sample_repr ascii_chars _ "secret"
           (listing_reply xs) [("data", PyList xs)] [PyDict sample_expense]
           [PyDict second_expense] (PyDict null_amount_expense)
           None None None None 50 no_effects Hkey eq_refl eq_refl eq_refl eq_refl).
  - repeat constructor.
  - reflexivity.
Defined.

Lemma get_expense_receipts_listing_witness :
  let xs := [PyDict sample_receipt; PyDict []] in
  configured (secret_world (reply 200 "" (PyList xs))) "secret"
  ∧ Forall (fun e => is_dict e = true) xs
  ∧ fst (get_expense_receipts sample_repr ascii_chars
           (secret_world (reply 200 "" (PyList xs))) "abc-123" no_effects)
    = Returned (receipts_header "abc-123" +:+ blocks (receipt_block sample_repr) xs).
Proof.
  intros xs.
  assert (configured (secret_world (reply 200 "" (PyList xs))) "secret") as Hkey.
  { split; [reflexivity | discriminate]. }
  assert (Forall (fun e => is_dict e = true) xs) as Hdicts.
  { repeat constructor. }
  do 2 (split; [done |]).
  exact (get_expense_receipts_listing sample_repr ascii_chars _ "secret"
           (reply 200 "" (PyList xs)) (PyDict sample_receipt) [PyDict []] "abc-123"
           no_effects Hkey eq_refl eq_refl eq_refl Hdicts).
Defined.

Lemma get_expense_amount_not_object_witness :
  configured (secret_world (reply 200 "" (PyDict null_amount_expense))) "secret"
  ∧ dict_lookup "amountOriginal" null_amount_expense = Some PyNone
  ∧ fst (get_expense sample_repr ascii_chars
           (secret_world (reply 200 "" (PyDict null_amount_expense))) "bad-1"
           no_effects)
    = Returned "Error: 'NoneType' object has no attribute 'get'".
Proof.
  assert (configured (secret_world (reply 200 "" (PyDict null_amount_expense)))
            "secret") as Hkey.
  { split; [reflexivity | discriminate]. }
  do 2 (split; [done |]).
  exact (get_expense_amount_not_object sample_repr ascii_chars _ "secret"
           (reply 200 "" (PyDict null_amount_expense)) null_amount_expense PyNone
           "bad-1" no_effects Hkey eq_refl eq_refl eq_refl eq_refl eq_refl).
Defined.

Lemma listed_id_is_read_back_witness :
  let xs := [PyDict second_expense] in
  configured (secret_world (listing_reply (PyDict sample_expense :: xs))) "secret"
  ∧ lacks "010" (shown_id sample_repr sample_expense) = true
  ∧ py_contains "ID: " (shown_id sample_repr sample_expense) = false
  ∧ ∃ text,
      fst (list_expenses sample_repr ascii_chars
             (secret_world (listing_reply (PyDict sample_expense :: xs)))
             None None None None 5 no_effects)
      = Returned text
      ∧ first_expense_id text = Some "abc-123".
Proof.
  intros xs.
  assert (configured (secret_world (listing_reply (PyDict sample_expense :: xs)))
            "secret") as Hkey.
  { split; [reflexivity | discriminate]. }
  do 3 (split; [done |]).
  apply (listed_id_is_read_back sample_repr ascii_chars _ "secret"
           (listing_reply (PyDict sample_expense :: xs))
           [("data", PyList (PyDict sample_expense :: xs))] sample_expense xs
           None None None None 5 no_effects Hkey eq_refl eq_refl eq_refl eq_refl).
  - repeat constructor.
  - reflexivity.
  - reflexivity.
Defined.

Lemma limit_above_100_is_100_witness :
  100 ≤ 250
  ∧ list_expenses sample_repr ascii_chars (secret_world not_found_reply)
      None None None None 250 no_effects
    = list_expenses sample_repr ascii_chars (secret_world not_found_reply)
        None None None None 100 no_effects.
Proof.
  split; [lia |].
  apply (limit_above_100_is_100 sample_repr ascii_chars (secret_world not_found_reply)
           None None None None 250 no_effects).
  lia.
Defined.

Lemma get_expense_receipt_renders_objects_witness :
  configured (secret_world (reply 200 "" (PyDict sample_receipt))) "secret"
  ∧ get_expense_receipt sample_repr (secret_world (reply 200 "" (PyDict sample_receipt)))
      "abc-123" "r-1" no_effects
    = (Returned
         ("Receipt Details:" +:+ LF +:+ LF
          +:+ "ID: r-1" +:+ LF +:+ "Name: lunch.pdf" +:+ LF
          +:+ "MIME Type: application/pdf" +:+ LF +:+ "Size: 12 KB" +:+ LF
          +:+ "Download URL: N/A" +:+ LF +:+ "(URL valid for 15 hours)" +:+ LF),
       after_send no_effects
         (get_request "secret" "/expenses/abc-123/receipts/r-1" None)).
Proof.
  assert (configured (secret_world (reply 200 "" (PyDict sample_receipt))) "secret")
    as Hkey.
  { split; [reflexivity | discriminate]. }
  split; [exact Hkey |].
  exact (get_expense_receipt_renders_objects sample_repr _ "secret"
           (reply 200 "" (PyDict sample_receipt)) sample_receipt "abc-123" "r-1"
           no_effects Hkey eq_refl eq_refl eq_refl).
Defined.

(** A non-empty [amountSettled] is shown. *)
Example settled_amount_is_shown :
  settled_amount_line sample_repr settled_expense = "Settled Amount: 16 EUR" +:+ LF
  ∧ result (get_expense sample_repr ascii_chars
              (secret_world (reply 200 "" (PyDict settled_expense))) "abc-123")
    = Returned (expense_details_text sample_repr settled_expense "r-1, r-2").
Proof. split; vm_compute; reflexivity. Qed.
